(** * sync-sequelize-salesforce: the [Sqlize] connection manager

    A shallow embedding of [src/lib/sqlize/index.js]: the conventions layer
    that the application puts on top of the ORM (default timestamp fields,
    method-result normalisation, start-up sequence, version bookkeeping in
    the [SystemMeta] table, query-error interception, derived unique-index
    groups), followed by the properties established about it.

    Conventions of the embedding.
    - A JavaScript object used as a dictionary is an association list in
      own-property enumeration order ([Js.Obj]); for property names that are
      not array indices this is insertion order.  Writing a property that
      exists replaces its value in place, writing a new one appends it;
      reading consults own properties only.
    - Code that awaits or throws runs in the monad [M]: a function of the
      connection manager's observable state ([World]) that yields a
      [Completion] (normal return, or a thrown error / rejected promise)
      together with the state reached.
    - What the wrapped libraries decide (the ORM's own model registry, the
      migration runner, semver, date parsing) is taken as a section
      variable; persistence of the [SystemMeta] model is modelled on a table
      keyed by the unique [name] column. *)

From Stdlib Require Import String Ascii List ZArith Bool Lia.
From stdpp Require Import base gmap strings list pretty.
Import ListNotations.

(** ** JavaScript values and dictionaries *)

Module Js.

(** Primitive values, as they occur in option flags, uniqueness markers and
    column names. *)
Inductive Value :=
| Undefined
| Null
| Bool (b : bool)
| Num (n : Z)
| Str (s : string).

(** [ToBoolean]. *)
Definition truthy (v : Value) : bool :=
  match v with
  | Undefined | Null => false
  | Bool b => b
  | Num n => negb (n =? 0)%Z
  | Str s => negb (String.eqb s EmptyString)
  end.

(** [a === b] on primitives. *)
Definition strict_eq (a b : Value) : bool :=
  match a, b with
  | Undefined, Undefined | Null, Null => true
  | Bool x, Bool y => Bool.eqb x y
  | Num x, Num y => (x =? y)%Z
  | Str x, Str y => String.eqb x y
  | _, _ => false
  end.

(** [a || b]. *)
Definition or_else (a b : Value) : Value := if truthy a then a else b.

(** [ToPropertyKey]: the string under which [obj[v]] reads and writes. *)
Definition to_key (v : Value) : string :=
  match v with
  | Undefined => "undefined"
  | Null => "null"
  | Bool true => "true"
  | Bool false => "false"
  | Num n => pretty n
  | Str s => s
  end.

Definition Obj (V : Type) : Type := list (string * V).

Fixpoint obj_get {V} (o : Obj V) (k : string) : option V :=
  match o with
  | [] => None
  | (k', v) :: o' => if String.eqb k' k then Some v else obj_get o' k
  end.

(** [o[k] = v]. *)
Fixpoint obj_set {V} (o : Obj V) (k : string) (v : V) : Obj V :=
  match o with
  | [] => [(k, v)]
  | (k', v') :: o' =>
      if String.eqb k' k then (k', v) :: o' else (k', v') :: obj_set o' k v
  end.

(** [Object.assign(target, source)]. *)
Definition obj_assign {V} (target source : Obj V) : Obj V :=
  fold_left (fun t kv => obj_set t (fst kv) (snd kv)) source target.

Definition obj_keys {V} (o : Obj V) : list string := map fst o.

(** [Object.values(o)]. *)
Definition obj_values {V} (o : Obj V) : list V := map snd o.

(** An association list denotes an object when no key occurs twice. *)
Definition wf_obj {V} (o : Obj V) : Prop := NoDup (obj_keys o).

End Js.

(** ** Thrown values and completions *)

(** An [Error] object: its message and, for the ORM's database errors, the
    SQL text it carries in [err.sql]. *)
Record Error := mkError {
  message : string;
  sql : Js.Value
}.

Inductive Completion (A : Type) : Type :=
| Return (a : A)
| Throw (e : Error).
Arguments Return {A} a.
Arguments Throw {A} e.

(** ** Default fields ([addDefaultFields], [addTimestamps]) *)

Module Fields.
Import Js.

(** Members of the ORM's [DataTypes] namespace. *)
Inductive DataType := DATE | STRING | INTEGER | BOOLEAN | JSON.

(** A field descriptor; a property the descriptor does not carry is [None]
    (or [Undefined] where the source reads it as a value). *)
Record FieldDescriptor := mkField {
  field : Value;
  _autoGenerated : option bool;
  type : option DataType;
  allowNull : option bool;
  unique : Value;
  primaryKey : option bool
}.

(** The options record of a model, as far as [define] reads it. *)
Record Options := mkOptions {
  freezeTableName : Value;
  paranoid : Value;
  timestamps : Value;
  createdAt : Value;
  updatedAt : Value;
  deletedAt : Value
}.

(** The descriptor literal of a synthetic date field. *)
Definition generated (column : Value) (nullability : option bool) : FieldDescriptor :=
  {| field := column;
     _autoGenerated := Some true;
     type := Some DATE;
     allowNull := nullability;
     unique := Undefined;
     primaryKey := None |}.

(** [x !== false]. *)
Definition not_false (x : Value) : bool := negb (strict_eq x (Bool false)).

Definition addTimestamps (fields : Obj FieldDescriptor) (options : Options)
  : Obj FieldDescriptor :=
  let tail : Obj FieldDescriptor := [] in
  let tail :=
    if not_false (createdAt options) then
      let field := or_else (createdAt options) (Str "created_at") in
      obj_assign tail [("createdAt", generated field (Some false))]
    else tail in
  let tail :=
    if not_false (updatedAt options) then
      let field := or_else (updatedAt options) (Str "updated_at") in
      obj_assign tail [("updatedAt", generated field (Some false))]
    else tail in
  let tail :=
    if not_false (deletedAt options) then
      let field := or_else (deletedAt options) (Str "deleted_at") in
      obj_assign tail [("deletedAt", generated field None)]
    else tail in
  obj_assign (obj_assign [] fields) tail.

Definition addDefaultFields (fields : Obj FieldDescriptor) (options : Options)
  : Obj FieldDescriptor :=
  if truthy (timestamps options) then addTimestamps fields options else fields.

(** The three defaults [define] applies to the options before it calls
    [addDefaultFields]: each flag becomes [true] unless it is [false]. *)
Definition define_options (options : Options) : Options :=
  {| freezeTableName :=
       if not_false (freezeTableName options) then Bool true else freezeTableName options;
     paranoid := if not_false (paranoid options) then Bool true else paranoid options;
     timestamps := if not_false (timestamps options) then Bool true else timestamps options;
     createdAt := createdAt options;
     updatedAt := updatedAt options;
     deletedAt := deletedAt options |}.

(** The field mapping [define] hands to [Model.init]. *)
Definition define_fields (fields : Obj FieldDescriptor) (options : Options)
  : Obj FieldDescriptor :=
  addDefaultFields fields (define_options options).

End Fields.

(** ** The lodash helpers the sources use on dictionaries *)

Module Lodash.
Import Js.

(** [transform(object, iteratee)] with the accumulator left out: the
    iteratee sees a fresh empty object and every own value in turn; none
    of the iteratees in the sources returns [false], so the walk never
    stops early.  The accumulator is read and written by own property, and
    keeps the order its properties were written in: this is the object of
    the program for property names that are neither array indices nor
    inherited from [Object.prototype] (see [JsNames]). *)
Definition transform {V A} (object : Obj V) (iteratee : Obj A -> V -> Obj A) : Obj A :=
  fold_left (fun acc kv => iteratee acc (snd kv)) object [].

(** [filter(object, predicate)]: the own values that match, in order. *)
Definition filter {V} (object : Obj V) (matches : V -> bool) : list V :=
  List.filter matches (obj_values object).

(** [map(collection, 'property')]. *)
Definition map {V W} (collection : list V) (property : V -> W) : list W :=
  List.map property collection.

End Lodash.

(** ** Derived unique-index groups ([Sqlize.Model.uniqueIndices]) *)

Module Indices.
Import Js Fields.

Definition uniqueIndices (rawAttributes : Obj FieldDescriptor) : list (list Value) :=
  let indices :=
    Lodash.transform rawAttributes (fun acc attribute =>
      let field := field attribute in
      let unique := unique attribute in
      if negb (truthy unique) || bool_decide (is_Some (obj_get acc (to_key unique)))
      then acc
      else if strict_eq unique (Bool true)
      then obj_set acc (to_key field) [field]
      else
        obj_set acc (to_key unique)
          (Lodash.map
             (Lodash.filter rawAttributes
                (fun candidate => strict_eq (Fields.unique candidate) unique))
             Fields.field)) in
  obj_values indices.

End Indices.

(** ** Method-result normalisation ([wrapMethod], [wrapMethods]) *)

Module Wrap.
Import Js.

(** The promise implementations a result can come from; [wrapMethods]
    receives the ORM's own ([this.Sequelize.Promise]). *)
Inductive PromiseCtor := SequelizePromise | NativePromise.

Definition same_ctor (p q : PromiseCtor) : bool :=
  match p, q with
  | SequelizePromise, SequelizePromise | NativePromise, NativePromise => true
  | _, _ => false
  end.

(** A property of a result object is a function or some other value. *)
Inductive Member := MFunction | MData (v : Value).

(** What a model method can return: a primitive, an object with its own
    properties, or a promise built by one of the constructors and resolved
    with (following, when that is a thenable) [source]. *)
Inductive Result :=
| Plain (v : Value)
| Object (members : Obj Member)
| PromiseOf (ctor : PromiseCtor) (source : Result).

Definition truthy (r : Result) : bool :=
  match r with
  | Plain v => Js.truthy v
  | Object _ | PromiseOf _ _ => true
  end.

(** [r[k]]: promises expose [then] and [catch]; primitives expose neither. *)
Definition member (r : Result) (k : string) : option Member :=
  match r with
  | Plain _ => None
  | Object members => obj_get members k
  | PromiseOf _ _ =>
      if String.eqb k "then" || String.eqb k "catch" then Some MFunction else None
  end.

(** [isFunction(r[k])]. *)
Definition has_function (r : Result) (k : string) : bool :=
  match member r k with
  | Some MFunction => true
  | _ => false
  end.

(** A thenable is a value with a callable [then]. *)
Definition thenable (r : Result) : bool := has_function r "then".

(** [Promise.resolve(r)]: a promise of the same constructor is returned as
    it is, anything else is wrapped in a new promise that follows it. *)
Definition Promise_resolve (Promise : PromiseCtor) (r : Result) : Result :=
  match r with
  | PromiseOf ctor _ => if same_ctor ctor Promise then r else PromiseOf Promise r
  | _ => PromiseOf Promise r
  end.

(** A method: from the receiver and the arguments to a completion. *)
Definition Method : Type := Result -> list Result -> Completion Result.

(** An own property as [Reflect.getOwnPropertyDescriptor] shows it: a data
    property holding a function or another value, or an accessor (whose
    descriptor has no [value]).  Data properties are taken to be writable,
    as the members of a class body are; assigning a read-only one throws
    in strict mode, which is outside this model. *)
Inductive Property :=
| FunctionValue (f : Method)
| OtherValue (v : Value)
| Accessor.

(** The function [wrapMethod] installs in place of [value]. *)
Definition wrapper (value : Method) (Promise : PromiseCtor) : Method :=
  fun this arguments =>
    match value this arguments with
    | Throw e => Throw e
    | Return result =>
        if negb (truthy result) || negb (has_function result "catch")
        then Return result
        else Return (Promise_resolve Promise result)
    end.

(** The [TypeError] of destructuring an absent descriptor; the [catch]
    block prints it and throws it again. *)
Definition no_descriptor : Error :=
  mkError "Cannot destructure property 'value' of undefined" Undefined.

Definition wrapMethod (object : Obj Property) (key : string) (Promise : PromiseCtor)
  : Completion (Obj Property) :=
  if String.eqb key "constructor" then Return object
  else
    match obj_get object key with
    | None => Throw no_descriptor
    | Some (FunctionValue value) =>
        Return (obj_set object key (FunctionValue (wrapper value Promise)))
    | Some _ => Return object
    end.

(** [forEach(keys, key => wrapMethod(object, key, Promise))]. *)
Fixpoint wrapEach (keys : list string) (object : Obj Property) (Promise : PromiseCtor)
  : Completion (Obj Property) :=
  match keys with
  | [] => Return object
  | key :: keys' =>
      match wrapMethod object key Promise with
      | Throw e => Throw e
      | Return object' => wrapEach keys' object' Promise
      end
  end.

(** A constructor and what [Object.getPrototypeOf] walks through: a class
    with its prototype object, its static properties and its parent; the
    walk ends at the ORM's base model class or at [null]. *)
Inductive Ctor :=
| SequelizeModel
| NullProto
| Class (prototype statics : Obj Property) (parent : Ctor).

(** [wrapMethods(Model, Promise)], for a model class as [define] passes it;
    the result is the class with its method tables, and those of its
    ancestors below the base class, after the mutation. *)
Fixpoint wrapMethods (Model : Ctor) (Promise : PromiseCtor) : Completion Ctor :=
  match Model with
  | Class prototype statics parent =>
      match wrapEach (obj_keys prototype) prototype Promise with
      | Throw e => Throw e
      | Return prototype' =>
          match wrapEach (obj_keys statics) statics Promise with
          | Throw e => Throw e
          | Return statics' =>
              match wrapMethods parent Promise with
              | Throw e => Throw e
              | Return parent' => Return (Class prototype' statics' parent')
              end
          end
      end
  | _ => Return Model
  end.

(** Calling [object[key](...arguments)] on [this]. *)
Definition invoke (object : Obj Property) (key : string) (this : Result)
    (arguments : list Result) : option (Completion Result) :=
  match obj_get object key with
  | Some (FunctionValue f) => Some (f this arguments)
  | _ => None
  end.

End Wrap.

(** ** The connection manager's state and the monad of its operations *)

(** A registered model class, known by its name ([Model.name]). *)
Record ModelClass := mkModel { name : string }.

(** JSON documents, as the [data] column of [SystemMeta] holds them. *)
#[warnings="-register-all"]
Inductive Json :=
| JNull
| JBool (b : bool)
| JNum (n : Z)
| JStr (s : string)
| JObj (members : list (string * Json)).

(** A [SystemMeta] instance: the unique [name] and the [data] mapping. *)
Record Instance := mkInstance {
  inst_name : string;
  data : Js.Obj Json
}.

Inductive Level := LevelDebug | LevelInfo | LevelError.

(** The structured values the code hands to the logger. *)
Inductive LogValue :=
| LString (s : string)
| LStrings (l : list string)
| LValue (v : Js.Value)
| LError (e : Error).

(** One call of [logger.debug / info / error]: the context object and the
    remaining arguments. *)
Record LogEntry := mkLog {
  level : Level;
  context : Js.Obj LogValue;
  text : list string
}.

(** The observable state: what the logger received from the calls written
    in [initialize], [checkDatabaseVersion], [migrate] and [query] (the
    debug lines the ORM sends through its [logging] option for every
    statement it issues are not recorded), the events emitted on the
    manager, [this.$models] (assigned by [register], undefined before),
    [this.$sequelize], and the rows of the [SystemMeta] table by [name]. *)
Record World := mkWorld {
  log : list LogEntry;
  emitted : list (string * Error);
  dollar_models : option (gmap string ModelClass);
  dollar_sequelize : option nat;
  systemMeta : gmap string (Js.Obj Json)
}.

Definition M (A : Type) : Type := World -> Completion A * World.

Definition ret {A} (a : A) : M A := fun w => (Return a, w).

Definition throw {A} (e : Error) : M A := fun w => (Throw e, w).

(** Sequencing; [await] of a rejected promise and a thrown error both end
    the function with the state reached so far. *)
Definition bind {A B} (m : M A) (k : A -> M B) : M B :=
  fun w =>
    match m w with
    | (Return a, w') => k a w'
    | (Throw e, w') => (Throw e, w')
    end.

Declare Scope js_scope.
Delimit Scope js_scope with js.
Notation "x <- m ;; k" := (bind m (fun x => k))
  (at level 100, m at next level, right associativity) : js_scope.
Notation "m ;; k" := (bind m (fun _ => k))
  (at level 100, right associativity) : js_scope.

Definition logger (l : Level) (ctx : Js.Obj LogValue) (args : list string) : M unit :=
  fun w =>
    (Return tt,
     mkWorld (log w ++ [mkLog l ctx args]) (emitted w) (dollar_models w)
       (dollar_sequelize w) (systemMeta w)).

(** [this.emit(event, err)]. *)
Definition emit (event : string) (err : Error) : M unit :=
  fun w =>
    (Return tt,
     mkWorld (log w) (emitted w ++ [(event, err)]) (dollar_models w)
       (dollar_sequelize w) (systemMeta w)).

Definition set_dollar_sequelize (other : option nat) : M unit :=
  fun w =>
    (Return tt,
     mkWorld (log w) (emitted w) (dollar_models w) other (systemMeta w)).

Definition set_systemMeta (table : gmap string (Js.Obj Json)) (w : World) : World :=
  mkWorld (log w) (emitted w) (dollar_models w) (dollar_sequelize w) table.

Definition newline : string := String (ascii_of_nat 10) EmptyString.
Definition quote : string := String (ascii_of_nat 34) EmptyString.

(** Pass-through query options; of these the persistence model reads
    [ignoreDuplicates] only. *)
Record QueryOptions := mkQueryOptions {
  transaction : option nat;
  ignoreDuplicates : option bool
}.

(** ** Persistence of the [SystemMeta] model *)

Module SystemMetaModel.
Import Js.

(** Modelled from the spec: the [SystemMeta] sibling model is not part of
    the sources; a record is a singleton-per-name row holding a free-form
    data mapping, and a row created on first access starts with the empty
    mapping. *)
Definition default_data : Obj Json := [].

(** [SystemMeta.findOrCreate({ where: { name }, ...options })]. *)
Definition findOrCreate (name : string) (options : option QueryOptions) : M Instance :=
  fun w =>
    match systemMeta w !! name with
    | Some d => (Return (mkInstance name d), w)
    | None =>
        (Return (mkInstance name default_data),
         set_systemMeta (<[name := default_data]> (systemMeta w)) w)
    end.

Definition unique_violation : Error :=
  mkError "Validation error" Undefined.

Definition insert_missing
    (table : gmap string (Obj Json)) (item : Instance) : gmap string (Obj Json) :=
  match table !! inst_name item with
  | Some _ => table
  | None => <[inst_name item := data item]> table
  end.

(** Whether inserting [items] one after the other meets a taken [name]. *)
Fixpoint collides (table : gmap string (Obj Json)) (items : list Instance) : bool :=
  match items with
  | [] => false
  | item :: rest =>
      match table !! inst_name item with
      | Some _ => true
      | None => collides (<[inst_name item := data item]> table) rest
      end
  end.

(** [SystemMeta.bulkCreate(items, options)]: one insert of all the rows;
    with [ignoreDuplicates] a row whose [name] is taken is skipped, without
    it the unique key rejects the whole insert. *)
Definition bulkCreate (items : list Instance) (ignore : bool) : M (list Instance) :=
  fun w =>
    if ignore then
      (Return items, set_systemMeta (fold_left insert_missing items (systemMeta w)) w)
    else if collides (systemMeta w) items then (Throw unique_violation, w)
    else
      (Return items, set_systemMeta (fold_left insert_missing items (systemMeta w)) w).

(** [String.prototype.split] on a one-character separator. *)
Fixpoint split (separator : ascii) (s : string) : list string :=
  match s with
  | EmptyString => [EmptyString]
  | String c s' =>
      if Ascii.eqb c separator then EmptyString :: split separator s'
      else
        match split separator s' with
        | [] => [String c EmptyString]
        | piece :: pieces => String c piece :: pieces
        end
  end.

Definition not_nestable (piece : string) : Error :=
  mkError ("Target key " +:+ quote +:+ piece +:+ quote +:+
           " is not suitable for a nested value.") Undefined.

(** Assignment along a path of keys, as the ORM does it for a nested key of
    a JSON attribute: missing levels are created, a level that holds
    something else than an object is refused. *)
Fixpoint set_nested (o : Obj Json) (pieces : list string) (value : Json)
  : Completion (Obj Json) :=
  match pieces with
  | [] => Return o
  | piece :: rest =>
      match rest with
      | [] => Return (obj_set o piece value)
      | _ :: _ =>
          match obj_get o piece with
          | None =>
              match set_nested [] rest value with
              | Return sub => Return (obj_set o piece (JObj sub))
              | Throw e => Throw e
              end
          | Some (JObj sub) =>
              match set_nested sub rest value with
              | Return sub' => Return (obj_set o piece (JObj sub'))
              | Throw e => Throw e
              end
          | Some _ => Throw (not_nestable piece)
          end
      end
  end.

(** [sm.set(key, value)] for a dotted key: the first piece names the JSON
    attribute, the rest is the path inside it; a key that does not lead
    into [data] leaves the instance as it is. *)
Definition set (sm : Instance) (key : string) (value : Json) : M Instance :=
  match split "." key with
  | "data" :: (_ :: _) as rest =>
      match set_nested (data sm) rest value with
      | Return d => ret (mkInstance (inst_name sm) d)
      | Throw e => throw e
      end
  | _ => ret sm
  end.

(** [sm.save()]: the row of this [name] now holds the instance's data. *)
Definition save (sm : Instance) : M Instance :=
  fun w => (Return sm, set_systemMeta (<[inst_name sm := data sm]> (systemMeta w)) w).

End SystemMetaModel.

(** ** The [Sqlize] class *)

(** The application's package descriptor, as [checkDatabaseVersion] reads
    it: [pkg.name] and [pkg.engines]. *)
Record Package := mkPackage {
  pkg_name : string;
  engines : option (gmap string string)
}.

(** [this.options] and [this.config]. *)
Record Settings := mkSettings {
  dialect : string;
  migrationsPath : string;
  migrationStorageTableName : string;
  config : Js.Obj Js.Value
}.

(** A migration descriptor returned by the migration runner. *)
Record Migration := mkMigration { file : string }.

(** The argument of [initialize]. *)
Record OtherDb := mkOtherDb { sequelize : option nat }.

(** What a method that ends in [return this] or in a bare [return] gives
    back. *)
Inductive Returned := ReturnedUndefined | ReturnedThis.

Inductive Date := InvalidDate | Time (ms : Z).

Module Sqlize.
Import Js.

(** [pick(object, paths)]. *)
Definition pick {V} (object : Obj V) (paths : list string) : Obj V :=
  flat_map
    (fun k => match obj_get object k with Some v => [(k, v)] | None => [] end)
    paths.

(** [getConfig(sequelize)]: the listed top-level fields of the
    configuration.  Values are kept as primitives here; what [replication]
    and [dialectOptions] hold inside is not represented. *)
Definition getConfig (settings : Settings) : Obj Value :=
  pick (config settings)
    ["database"; "username"; "host"; "port"; "protocol"; "pool"; "native";
     "ssl"; "replication"; "dialectModulePath"; "keepDefaultTimezone";
     "dialectOptions"].

Definition undefined_property (property : string) : Error :=
  mkError ("Cannot read properties of undefined (reading '" +:+ property +:+ "')")
    Undefined.

Section Manager.

(** The manager's settings, the package descriptor and the execution
    context ([NODE_ENV === 'production']). *)
Variable settings : Settings.
Variable pkg : Package.
Variable isProduction : bool.

(** The wrapped libraries: the ORM's own [model], [authenticate], the query
    interface's [databaseVersion], the migration runner's [up] and
    [executed], semver's [coerce] and [satisfies], the ORM's [query], and
    date-fns' [parseISO]. *)
Variable super_model : string -> Completion (option ModelClass).
Variable authenticate : M unit.
Variable databaseVersion : M string.
Variable umzug_up : M unit.
Variable umzug_executed : M (list Migration).
Variable SemVer : Type.
Variable semver_coerce : string -> option SemVer.
Variable semver_satisfies : option SemVer -> string -> bool.
Variable QueryResult : Type.
Variable super_query : string -> option QueryOptions -> M QueryResult.
Variable parseISO : string -> Date.

Local Open Scope js_scope.

(** [model(name)]: [this.$models[name] || super.model(name)].  The
    registered models are read by own property; a name [$models] inherits
    from [Object.prototype] ([JsNames.inherited]) is found there by the
    program before the ORM is asked. *)
Definition model (name : string) : M (option ModelClass) :=
  fun w =>
    match dollar_models w with
    | None => (Throw (undefined_property name), w)
    | Some models =>
        match models !! name with
        | Some Model => (Return (Some Model), w)
        | None => (super_model name, w)
        end
    end.

(** [{ ignoreDuplicates: true, ...options }]. *)
Definition ignoreDuplicates_or_true (options : option QueryOptions) : bool :=
  match options with
  | Some o => default true (ignoreDuplicates o)
  | None => true
  end.

(** [initSystemMeta(records, options)]; [None] is the bare [return]. *)
Definition initSystemMeta (records : Obj (Obj Json)) (options : option QueryOptions)
  : M (option (list Instance)) :=
  SystemMeta <- model "SystemMeta" ;;
  match SystemMeta with
  | None => ret None
  | Some _ =>
      let items := List.map (fun r => mkInstance (fst r) (snd r)) records in
      created <- SystemMetaModel.bulkCreate items (ignoreDuplicates_or_true options) ;;
      ret (Some created)
  end.

Definition checkDatabaseVersion : M Returned :=
  let dialect := dialect settings in
  version <- databaseVersion ;;
  logger LevelInfo [("version", LString version)] [dialect +:+ " version:"; version] ;;
  let range :=
    match engines pkg with
    | Some engines => engines !! dialect
    | None => None
    end in
  match range with
  | None => ret ReturnedThis
  | Some range =>
      if negb (truthy (Str range)) then ret ReturnedThis
      else if semver_satisfies (semver_coerce version) range then ret ReturnedThis
      else
        let err :=
          mkError (quote +:+ pkg_name pkg +:+ quote +:+ " requires " +:+ dialect
                   +:+ " " +:+ range) Undefined in
        logger LevelError [("version", LString version); ("required", LString range)]
          [message err] ;;
        throw err
  end.

(** [migrate()]: the runner's notifications only log and are left out. *)
Definition migrate : M (list Migration) :=
  (if negb isProduction then umzug_up else ret tt) ;;
  umzug_executed.

Definition initialize (otherDb : OtherDb) : M Returned :=
  set_dollar_sequelize (sequelize otherDb) ;;
  authenticate ;;
  logger LevelInfo (List.map (fun kv => (fst kv, LValue (snd kv))) (getConfig settings))
    ["🗄️  Connected to database"] ;;
  checkDatabaseVersion ;;
  migrations <- migrate ;;
  let files := List.map file migrations in
  if (length files =? 0)%nat then ret ReturnedUndefined
  else
    logger LevelInfo [("migrations", LStrings files)]
      ["🗄️  Executed migrations:" +:+ newline; String.concat newline files] ;;
    initSystemMeta [("versions", [])] None ;;
    ret ReturnedThis.

(** [query(sql, options)]: the handler given to [.catch] runs when the
    ORM's promise rejects. *)
Definition query (sqlText : string) (options : option QueryOptions) : M QueryResult :=
  fun w =>
    match super_query sqlText options w with
    | (Return result, w') => (Return result, w')
    | (Throw err, w') =>
        let ctx := [("err", LError err)] in
        let ctx :=
          if truthy (sql err) then obj_set ctx "query" (LValue (sql err))
          else ctx in
        (logger LevelError ctx ["🚨  Database error:"; message err] ;;
         emit "error" err ;;
         throw err) w'
    end.

(** *** Static methods of [Sqlize.Model] *)

(** [getSystemMeta(name, options)]; calling [findOrCreate] on a model
    that was not found is a [TypeError]. *)
Definition getSystemMeta (name : string) (options : option QueryOptions) : M Instance :=
  SystemMeta <- model "SystemMeta" ;;
  match SystemMeta with
  | None => throw (undefined_property "findOrCreate")
  | Some _ => SystemMetaModel.findOrCreate name options
  end.

(** [get(sm, path)] for a path of keys. *)
Fixpoint get_in (j : Json) (path : list string) : option Json :=
  match path with
  | [] => Some j
  | key :: rest =>
      match j with
      | JObj members =>
          match obj_get members key with
          | Some j' => get_in j' rest
          | None => None
          end
      | _ => None
      end
  end.

Definition get (sm : Instance) (path : list string) : option Json :=
  get_in (JObj [("name", JStr (inst_name sm)); ("data", JObj (data sm))]) path.

(** Truthiness of what [get] found ([None] is [undefined]). *)
Definition json_truthy (v : option Json) : bool :=
  match v with
  | None | Some JNull => false
  | Some (JBool b) => b
  | Some (JNum n) => negb (n =? 0)%Z
  | Some (JStr s) => negb (String.eqb s EmptyString)
  | Some (JObj _) => true
  end.

(** [parseISO(version)]: anything but a string is an invalid date. *)
Definition parseISO_value (v : option Json) : Date :=
  match v with
  | Some (JStr s) => parseISO s
  | _ => InvalidDate
  end.

Definition getVersion (this : ModelClass) (options : option QueryOptions) : M Date :=
  let path := ["data"; name this] in
  sm <- getSystemMeta "versions" options ;;
  let version := get sm path in
  ret (if json_truthy version then parseISO_value version else Time 0).

Definition setVersion (this : ModelClass) (version : Json) (options : option QueryOptions)
  : M Instance :=
  sm <- getSystemMeta "versions" options ;;
  let path := String.concat "." ["data"; name this] in
  sm <- SystemMetaModel.set sm path version ;;
  SystemMetaModel.save sm.

End Manager.

End Sqlize.

(** ** The ORM's own model lookup *)

Module Sequelize.

(** The error of looking up a model the ORM does not know. *)
Definition not_defined (modelName : string) : Error :=
  mkError (modelName +:+ " has not been defined") Js.Undefined.

(** [Sequelize#model(modelName)], the [super.model] of [Sqlize#model]: the
    model defined under the name, and an error for a name under which
    none is defined; it never answers with a falsy value.  [defined] is
    the ORM's registry of defined models. *)
Definition model (defined : gmap string ModelClass) (modelName : string)
  : Completion (option ModelClass) :=
  match defined !! modelName with
  | Some Model => Return (Some Model)
  | None => Throw (not_defined modelName)
  end.

End Sequelize.

(** ** Property names JavaScript treats specially *)

Module JsNames.

(** The number a string of decimal digits denotes. *)
Fixpoint digits (s : string) (acc : N) : option N :=
  match s with
  | EmptyString => Some acc
  | String c s' =>
      let n := N_of_ascii c in
      if ((48 <=? n) && (n <=? 57))%N then digits s' (10 * acc + (n - 48))%N else None
  end.

(** An array index: the canonical decimal form of an integer below
    [2^32 - 1].  Own properties with such names are enumerated first, in
    numeric order, whatever the order they were written in. *)
Definition array_index (key : string) : bool :=
  match key with
  | EmptyString => false
  | _ =>
      match digits key 0 with
      | Some n => (n <? 4294967295)%N && String.eqb (pretty n) key
      | None => false
      end
  end.

(** The members every plain object inherits from [Object.prototype];
    reading one of these names on an object that has no own property of
    the name finds the inherited member. *)
Definition inherited : list string :=
  ["constructor"; "__defineGetter__"; "__defineSetter__"; "hasOwnProperty";
   "__lookupGetter__"; "__lookupSetter__"; "isPrototypeOf"; "propertyIsEnumerable";
   "toString"; "valueOf"; "__proto__"; "toLocaleString"].

End JsNames.

(** ** Registration ([register], [define], [addHooks], [addScopes]) *)

Module Registration.
Import Js Fields.

(** A declared scope: a definition, or a function (for [defaultScope], a
    thunk that produces the definition). *)
Inductive Scope :=
| ScopeValue (definition : Obj Value)
| ScopeFunction (produces : Obj Value).

(** The calls [register] makes into the ORM, in the order it makes them:
    [super.define] for what is no [Sqlize.Model] class, [Model.init],
    [Model.associate(models)], [Model.addHook] and [Model.addScope]. *)
Inductive OrmCall :=
| SuperDefine (Model : ModelClass)
| Init (Model : ModelClass) (fields : Obj FieldDescriptor) (options : Options)
| Associate (Model : ModelClass) (models : list string)
| AddHook (Model : ModelClass) (hookType : string) (handler : nat)
| AddScope (Model : ModelClass) (scopeName : string) (scope : Scope) (override : bool).

(** A model class as [register] sees it: whether its prototype descends
    from [Sqlize.Model], what its static [fields], [options], [hooks] and
    [scopes] return when it has them ([None] when it has not), whether it
    has a static [associate], and its constructor chain. *)
Record ModelDef := mkModelDef {
  model_class : ModelClass;
  isModel : bool;
  fields : option (Obj FieldDescriptor);
  options : option Options;
  chain : Wrap.Ctor;
  associate : bool;
  hooks : option (Obj nat);
  scopes : option (Obj Scope)
}.

(** The empty options object of [invoke(Model, 'options') || {}]. *)
Definition no_options : Options :=
  mkOptions Undefined Undefined Undefined Undefined Undefined Undefined.

(** The calls made so far, and how the code that made them ended. *)
Definition Traced (A : Type) : Type := list OrmCall * Completion A.

Definition and_then {A B} (m : Traced A) (k : A -> Traced B) : Traced B :=
  match m with
  | (calls, Return a) => let (calls', outcome) := k a in (calls ++ calls', outcome)
  | (calls, Throw e) => (calls, Throw e)
  end.

Section Orm.

(** What the ORM answers to a call: [None] when the call returns, the
    error when it throws. *)
Variable orm : OrmCall -> option Error.

(** One call into the ORM; an error it throws ends the caller. *)
Definition call (c : OrmCall) : Traced unit :=
  ([c], match orm c with Some e => Throw e | None => Return tt end).

(** [define(Model)]: the calls made and the class as the method-table
    mutation leaves it. *)
Definition define (Model : ModelDef) (Promise : Wrap.PromiseCtor) : Traced ModelDef :=
  if negb (isModel Model)
  then and_then (call (SuperDefine (model_class Model))) (fun _ => ([], Return Model))
  else
    let fields := default [] (fields Model) in
    let options := define_options (default no_options (options Model)) in
    let fields := addDefaultFields fields options in
    match Wrap.wrapMethods (chain Model) Promise with
    | Throw e => ([], Throw e)
    | Return chain' =>
        and_then (call (Init (model_class Model) fields options))
          (fun _ =>
             ([], Return (mkModelDef (model_class Model) (isModel Model)
                            (Registration.fields Model) (Registration.options Model)
                            chain' (associate Model) (hooks Model) (scopes Model))))
    end.

(** [forEach(models, Model => this.define(Model))]. *)
Fixpoint defineEach (models : Obj ModelDef) (Promise : Wrap.PromiseCtor)
  : Traced (Obj ModelDef) :=
  match models with
  | [] => ([], Return [])
  | (key, Model) :: rest =>
      and_then (define Model Promise) (fun Model' =>
      and_then (defineEach rest Promise) (fun rest' =>
      ([], Return ((key, Model') :: rest'))))
  end.

(** Calls made one after the other, up to the first that throws. *)
Fixpoint callEach (calls : list OrmCall) : Traced unit :=
  match calls with
  | [] => ([], Return tt)
  | c :: rest => and_then (call c) (fun _ => callEach rest)
  end.

(** [forEach(hooks, (it, type) => Model.addHook(type, it))]. *)
Definition addHooks (Model : ModelDef) : Traced unit :=
  callEach
    match hooks Model with
    | Some declared =>
        List.map (fun kv => AddHook (model_class Model) (fst kv) (snd kv)) declared
    | None => []
    end.

(** [result(scopes, 'defaultScope')]: a function is called for its
    value. *)
Definition result (scope : Scope) : Scope :=
  match scope with
  | ScopeFunction produces => ScopeValue produces
  | ScopeValue _ => scope
  end.

(** [addScopes(Model, models)]. *)
Definition addScopes (Model : ModelDef) : Traced unit :=
  callEach
    match scopes Model with
    | Some declared =>
        List.map
          (fun kv =>
             let scope :=
               if String.eqb (fst kv) "defaultScope" then result (snd kv) else snd kv in
             AddScope (model_class Model) (fst kv) scope true)
          declared
    | None => []
    end.

(** The body of the second [forEach] of [register]. *)
Definition wire (models : Obj ModelDef) (Model : ModelDef) : Traced unit :=
  and_then
    (if associate Model then call (Associate (model_class Model) (obj_keys models))
     else ([], Return tt))
    (fun _ => and_then (addHooks Model) (fun _ => addScopes Model)).

Fixpoint wireEach (models rest : Obj ModelDef) : Traced unit :=
  match rest with
  | [] => ([], Return tt)
  | (key, Model) :: rest' => and_then (wire models Model) (fun _ => wireEach models rest')
  end.

(** [register(models)]: [this.$models] is assigned first; then every model
    is defined, and only then every model is wired.  The first call that
    throws ends the registration. *)
Definition register (models : Obj ModelDef) (Promise : Wrap.PromiseCtor) (w : World)
  : Traced unit * World :=
  let w' :=
    mkWorld (log w) (emitted w)
      (Some (list_to_map (List.map (fun kv => (fst kv, model_class (snd kv))) models)))
      (dollar_sequelize w) (systemMeta w) in
  (and_then (defineEach models Promise) (fun models' => wireEach models' models'), w').

End Orm.

End Registration.

(** ** Writable attributes ([Sqlize.Model.init]) *)

Module Attributes.
Import Js Fields.

(** An attribute as the ORM's [init] leaves it in [rawAttributes]: the
    descriptor and the attribute name it records in [fieldName]. *)
Record RawAttribute := mkRaw {
  fieldName : string;
  descriptor : FieldDescriptor
}.

(** The [reduce] that [init] stores in [$writableAttributes], given the
    [rawAttributes] and the [_readOnlyAttributes] set the ORM computed. *)
Definition writableAttributes (rawAttributes : Obj RawAttribute)
    (_readOnlyAttributes : gset string) : Obj RawAttribute :=
  fold_left
    (fun acc kv =>
       let name := fst kv in
       let options := snd kv in
       let isReadOnly := bool_decide (fieldName options ∈ _readOnlyAttributes) in
       if bool_decide (primaryKey (descriptor options) = Some true) || isReadOnly
       then acc
       else obj_assign acc [(name, options)])
    rawAttributes [].

End Attributes.

(** ** The patched [QueryInterface#bulkInsert] *)

Module QueryInterface.
Import Js Fields.

(** An attribute as [bulkInsert] reads it: the descriptor and the
    [upsertKey] flag. *)
Record InsertAttribute := mkInsertAttribute {
  descriptor : FieldDescriptor;
  upsertKey : Value
}.

(** [options.upsertKeys]: left out, some primitive, or a list of columns. *)
Inductive UpsertKeys :=
| KeysUnset
| KeysValue (v : Value)
| KeysColumns (columns : list Value).

Definition keys_truthy (keys : UpsertKeys) : bool :=
  match keys with
  | KeysUnset => false
  | KeysValue v => truthy v
  | KeysColumns _ => true
  end.

(** The insert options: [upsertKeys] and whatever else the caller set. *)
Record InsertOptions := mkInsertOptions {
  upsertKeys : UpsertKeys;
  others : Obj Value
}.

Section Patch.
Variable Result : Type.

(** The ORM's own [bulkInsert], captured by the constructor. *)
Variable original :
  string -> list (Obj Value) -> option InsertOptions -> option (Obj InsertAttribute) ->
  M Result.

(** [filter(attributes, flag)] followed by [map(_, 'field')];
    [attributes] may be left out. *)
Definition columns_of (attributes : option (Obj InsertAttribute))
    (flag : InsertAttribute -> bool) : list Value :=
  Lodash.map (Lodash.filter (default [] attributes) flag)
    (fun a => field (descriptor a)).

Definition bulkInsert (tableName : string) (records : list (Obj Value))
    (options : option InsertOptions) (attributes : option (Obj InsertAttribute)) : M Result :=
  match options with
  | None => throw (mkError "Cannot read properties of undefined (reading 'upsertKeys')" Undefined)
  | Some options =>
      let options :=
        if keys_truthy (upsertKeys options) then
          let primaryKeyColumns :=
            columns_of attributes
              (fun a => bool_decide (primaryKey (descriptor a) = Some true)) in
          let upsertKeyColumns := columns_of attributes (fun a => truthy (upsertKey a)) in
          mkInsertOptions
            (KeysColumns
               (if (0 <? length upsertKeyColumns)%nat then upsertKeyColumns
                else primaryKeyColumns))
            (others options)
        else options in
      original tableName records (Some options) attributes
  end.

End Patch.

End QueryInterface.

(** ** Definitions used to state the properties *)

Module Expected.
Import Js Fields.

(** The synthetic fields in the order the augmenter adds them: one for each
    of [createdAt], [updatedAt], [deletedAt] whose flag is not [false], on
    the column the flag names (or the default column), the first two not
    nullable. *)
Definition synthetic (options : Options) : Obj FieldDescriptor :=
  flat_map
    (fun '(name, flag, column, nullability) =>
       if not_false flag
       then [(name, generated (or_else flag (Str column)) nullability)]
       else [])
    [("createdAt", createdAt options, "created_at", Some false);
     ("updatedAt", updatedAt options, "updated_at", Some false);
     ("deletedAt", deletedAt options, "deleted_at", None)].

(** The method tables [wrapMethods] visits, from the model class upwards:
    for each class its prototype, then its static properties. *)
Fixpoint tables (Model : Wrap.Ctor) : list (Obj Wrap.Property) :=
  match Model with
  | Wrap.Class prototype statics parent => prototype :: statics :: tables parent
  | _ => []
  end.

(** An own property after the walk: a function other than [constructor]
    is replaced by its wrapper, everything else stays. *)
Definition wrap_property (Promise : Wrap.PromiseCtor) (kv : string * Wrap.Property)
  : string * Wrap.Property :=
  match snd kv with
  | Wrap.FunctionValue value =>
      if String.eqb (fst kv) "constructor" then kv
      else (fst kv, Wrap.FunctionValue (Wrap.wrapper value Promise))
  | _ => kv
  end.

Fixpoint wrap_classes (Promise : Wrap.PromiseCtor) (Model : Wrap.Ctor) : Wrap.Ctor :=
  match Model with
  | Wrap.Class prototype statics parent =>
      Wrap.Class (List.map (wrap_property Promise) prototype)
        (List.map (wrap_property Promise) statics) (wrap_classes Promise parent)
  | _ => Model
  end.

(** [whole] has [part] in it. *)
Definition mentions (part whole : string) : Prop :=
  exists before after, whole = before +:+ part +:+ after.

(** Whether [separator] does not occur in [s]. *)
Fixpoint free_of (separator : ascii) (s : string) : bool :=
  match s with
  | EmptyString => true
  | String c s' => negb (Ascii.eqb c separator) && free_of separator s'
  end.

Section Steps.
Variable settings : Settings.
Variable pkg : Package.
Variable isProduction : bool.
Variable authenticate : M unit.
Variable databaseVersion : M string.
Variable umzug_up : M unit.
Variable umzug_executed : M (list Migration).
Variable SemVer : Type.
Variable semver_coerce : string -> option SemVer.
Variable semver_satisfies : option SemVer -> string -> bool.
Local Open Scope js_scope.

(** Steps 1 to 3 of the initialization sequence, as [initialize] runs
    them: authenticate, check the engine version, run the migrations. *)
Definition steps_1_to_3 (otherDb : OtherDb) : M (list Migration) :=
  set_dollar_sequelize (sequelize otherDb) ;;
  authenticate ;;
  logger LevelInfo
    (List.map (fun kv => (fst kv, LValue (snd kv))) (Sqlize.getConfig settings))
    ["🗄️  Connected to database"] ;;
  Sqlize.checkDatabaseVersion settings pkg databaseVersion SemVer semver_coerce
    semver_satisfies ;;
  Sqlize.migrate isProduction umzug_up umzug_executed.

End Steps.

(** The state after the seeding insert: a [versions] row with the empty
    mapping if there was none, the table as it was otherwise. *)
Definition seeded (w : World) : World :=
  set_systemMeta
    (match systemMeta w !! "versions" with
     | Some _ => systemMeta w
     | None => <["versions" := []]> (systemMeta w)
     end) w.

End Expected.

(** Inputs of the examples. *)
Module Sample.
Import Js Fields.

(** Options that leave every flag unset, and the same with [timestamps]
    switched on as [define] does. *)
Definition unset : Options :=
  mkOptions Undefined Undefined Undefined Undefined Undefined Undefined.
Definition enabled : Options :=
  mkOptions Undefined Undefined (Bool true) Undefined Undefined Undefined.

(** A field the model declares itself. *)
Definition declared (column : string) : FieldDescriptor :=
  mkField (Str column) None (Some DATE) None Undefined None.

(** An attribute of [rawAttributes]: its column and uniqueness marker. *)
Definition attribute (column : string) (marker : Value) : FieldDescriptor :=
  mkField (Str column) None None None marker None.

(** Fields [a] and [b] share the uniqueness group [group]; [third] is
    unique on its own. *)
Definition grouped (group third : string) : Obj FieldDescriptor :=
  [("a", attribute "a" (Str group));
   ("b", attribute "b" (Str group));
   (third, attribute third (Bool true))].

(** Results a method can give: a thenable without [catch], an object with
    a [catch] method that is no thenable, a native promise. *)
Definition bare_thenable : Wrap.Result := Wrap.Object [("then", Wrap.MFunction)].
Definition catcher : Wrap.Result := Wrap.Object [("catch", Wrap.MFunction)].
Definition native : Wrap.Result := Wrap.PromiseOf Wrap.NativePromise (Wrap.Plain (Num 1)).

(** A model class with three instance methods and a static one, below the
    ORM's base class. *)
Definition Account : Wrap.Ctor :=
  Wrap.Class
    [("constructor", Wrap.FunctionValue (fun this _ => Return this));
     ("label", Wrap.FunctionValue (fun _ _ => Return (Wrap.Plain (Str "account"))));
     ("lazy", Wrap.FunctionValue (fun _ _ => Return bare_thenable));
     ("guarded", Wrap.FunctionValue (fun _ _ => Return catcher))]
    [("tableName", Wrap.OtherValue (Str "account"));
     ("load", Wrap.FunctionValue (fun _ _ => Return native))]
    Wrap.SequelizeModel.

(** A manager on PostgreSQL whose package requires one exact engine
    version. *)
Definition settings : Settings :=
  mkSettings "postgres" "db/migrations" "SequelizeMeta"
    [("database", Str "app"); ("host", Str "localhost")].
Definition pkg : Package :=
  mkPackage "sync-sequelize-salesforce" (Some {[ "postgres" := "12.3.0" ]}).

(** A stand-in for semver on exact versions: [coerce] keeps the text, and
    a version satisfies a range that is one exact version when it is that
    version. *)
Definition coerce (version : string) : option string := Some version.
Definition satisfies (version : option string) (range : string) : bool :=
  match version with
  | Some v => String.eqb v range
  | None => false
  end.

(** An ORM in which no model is defined: its lookup throws for every
    name. *)
Definition no_model (name : string) : Completion (option ModelClass) :=
  Sequelize.model ∅ name.

(** The manager before [register], after registering models without
    [SystemMeta], and after registering it, each with an empty table. *)
Definition constructed : World := mkWorld [] [] None None ∅.
Definition without_SystemMeta : World :=
  mkWorld [] [] (Some {[ "Account" := mkModel "Account" ]}) None ∅.
Definition registered : World :=
  mkWorld [] []
    (Some {[ "SystemMeta" := mkModel "SystemMeta"; "Account" := mkModel "Account" ]})
    None ∅.

(** The registered manager once [Account] has a version on record. *)
Definition instant : string := "2020-01-01T00:00:00.000Z".
Definition versioned : World :=
  mkWorld [] []
    (Some {[ "SystemMeta" := mkModel "SystemMeta"; "Account" := mkModel "Account" ]})
    None {[ "versions" := [("Account", JStr instant)] ]}.

(** A run of [initialize] in which every collaborator succeeds and the
    runner reports [executed]. *)
Definition run (executed : list Migration) (w : World) : Completion Returned * World :=
  Sqlize.initialize settings pkg false no_model (ret tt) (ret "12.3.0") (ret tt)
    (ret executed) string coerce satisfies (mkOtherDb None) w.

(** A database error as the ORM rejects with. *)
Definition syntax_error : Error :=
  mkError "syntax error at or near FORM" (Str "SELECT 1 FORM t").

(** An ORM whose [query] rejects every statement with [syntax_error], and
    one that resolves with the number of rows. *)
Definition rejecting (sqlText : string) (options : option QueryOptions) : M nat :=
  throw syntax_error.
Definition resolving (sqlText : string) (options : option QueryOptions) : M nat :=
  ret 3.

(** A stand-in for [parseISO] that knows one instant. *)
Definition parse (s : string) : Date :=
  if String.eqb s instant then Time 1577836800000 else InvalidDate.

End Sample.

(** Reading a trace of ORM calls. *)
Module Traces.
Import Registration.

(** Calls that install a model in the ORM, and calls that wire an
    installed model to its siblings. *)
Definition is_install (call : OrmCall) : bool :=
  match call with
  | SuperDefine _ | Init _ _ _ => true
  | _ => false
  end.

Definition is_wiring (call : OrmCall) : bool :=
  match call with
  | Associate _ _ | AddHook _ _ _ => true
  | AddScope _ _ _ override => override
  | _ => false
  end.

(** The class a call is made for. *)
Definition callee (call : OrmCall) : ModelClass :=
  match call with
  | SuperDefine Model | Init Model _ _ | Associate Model _ | AddHook Model _ _
  | AddScope Model _ _ _ => Model
  end.

End Traces.

(** Further inputs of the examples. *)
Module Fixtures.
Import Js Fields.

(** Errors of the collaborators. *)
Definition connection_refused : Error :=
  mkError "connect ECONNREFUSED 127.0.0.1:5432" Undefined.
Definition migration_failed : Error :=
  mkError "Migration 002-accounts.js failed" Undefined.

(** A package that records no engine requirement. *)
Definition pkg_without_engines : Package := mkPackage "sync-sequelize-salesforce" None.

(** Two model classes: [Account] declares fields, an association, a hook
    and two scopes; [Audit] declares nothing and switches timestamps off. *)
Definition AccountModel : Registration.ModelDef :=
  Registration.mkModelDef (mkModel "Account") true
    (Some [("id", Sample.declared "id")]) None Sample.Account true
    (Some [("beforeSave", 1%nat)])
    (Some [("defaultScope", Registration.ScopeFunction [("active", Bool true)]);
           ("recent", Registration.ScopeFunction [("limit", Num 10)])]).
Definition AuditModel : Registration.ModelDef :=
  Registration.mkModelDef (mkModel "Audit") true None
    (Some (mkOptions Undefined Undefined (Bool false) Undefined Undefined Undefined))
    (Wrap.Class [] [] Wrap.SequelizeModel) false None None.

(** The registered manager with a [versions] record whose entries hold no
    timestamp: an empty string and a zero. *)
Definition blanked : World :=
  mkWorld [] []
    (Some {[ "SystemMeta" := mkModel "SystemMeta"; "Account" := mkModel "Account" ]})
    None {[ "versions" := [("Account", JStr EmptyString); ("Contact", JNum 0)] ]}.

(** Raw attributes of a model with a primary key and a generated
    timestamp. *)
Definition raw (column : string) (key : option bool) : Attributes.RawAttribute :=
  Attributes.mkRaw column (mkField (Str column) None None None Undefined key).
Definition accountAttributes : Obj Attributes.RawAttribute :=
  [("id", raw "id" (Some true)); ("email", raw "email" None);
   ("createdAt", raw "createdAt" None); ("name", raw "name" (Some false))].

(** Insert attributes: a primary key, and a column flagged as upsert key. *)
Definition insertAttributes : Obj QueryInterface.InsertAttribute :=
  [("id", QueryInterface.mkInsertAttribute
            (mkField (Str "id") None None None Undefined (Some true)) Undefined);
   ("sfId", QueryInterface.mkInsertAttribute
              (mkField (Str "sf_id") None None None Undefined None) (Bool true));
   ("name", QueryInterface.mkInsertAttribute
              (mkField (Str "name") None None None Undefined None) Undefined)].

(** An ORM [bulkInsert] that answers with the options it was given. *)
Definition echo (tableName : string) (records : list (Obj Value))
    (options : option QueryInterface.InsertOptions)
    (attributes : option (Obj QueryInterface.InsertAttribute))
  : M (option QueryInterface.InsertOptions) := ret options.

End Fixtures.

(** * Properties *)

(** ** Dictionaries *)

Section ObjFacts.
Import Js.
Context {V : Type}.
Implicit Types (o : Obj V) (k : string) (v : V).

Lemma obj_get_app o o' k :
  obj_get (o ++ o') k =
  match obj_get o k with Some v => Some v | None => obj_get o' k end.
Proof.
  induction o as [|[k' v'] o IH]; simpl; [reflexivity|].
  destruct (String.eqb k' k); [reflexivity | exact IH].
Qed.

Lemma obj_get_None_keys o k : obj_get o k = None <-> k ∉ obj_keys o.
Proof.
  induction o as [|[k' v'] o IH]; simpl.
  - split; [intros _; apply not_elem_of_nil | reflexivity].
  - rewrite not_elem_of_cons.
    destruct (String.eqb_spec k' k) as [->|Hne].
    + split; [discriminate | intros [H _]; congruence].
    + rewrite IH. split; [intros H; split; [congruence | exact H] | intros [_ H]; exact H].
Qed.

Lemma obj_get_Some_keys o k v : obj_get o k = Some v -> k ∈ obj_keys o.
Proof.
  intros H. destruct (decide (k ∈ obj_keys o)) as [Hin|Hout]; [exact Hin|].
  apply obj_get_None_keys in Hout. congruence.
Qed.

(** Writing a property the object does not have appends it. *)
Lemma obj_set_fresh o k v : obj_get o k = None -> obj_set o k v = o ++ [(k, v)].
Proof.
  induction o as [|[k' v'] o IH]; simpl; [reflexivity|].
  destruct (String.eqb k' k); [discriminate|].
  intros H. now rewrite IH.
Qed.

(** Writing keeps the keys of an object that has the property. *)
Lemma obj_set_keys_present o k v :
  k ∈ obj_keys o -> obj_keys (obj_set o k v) = obj_keys o.
Proof.
  induction o as [|[k' v'] o IH]; simpl; [intros H; now apply elem_of_nil in H|].
  destruct (String.eqb_spec k' k) as [->|Hne]; simpl; [reflexivity|].
  rewrite elem_of_cons. intros [E|Hin]; [congruence|]. now rewrite IH.
Qed.

Lemma obj_get_set_same o k v : obj_get (obj_set o k v) k = Some v.
Proof.
  induction o as [|[k' v'] o IH]; simpl.
  - now rewrite String.eqb_refl.
  - destruct (String.eqb k' k) eqn:E; simpl; rewrite E; [reflexivity | exact IH].
Qed.

Lemma obj_get_set_other o k k' v : k <> k' -> obj_get (obj_set o k v) k' = obj_get o k'.
Proof.
  intros Hne. induction o as [|[k0 v0] o IH]; simpl.
  - destruct (String.eqb_spec k k'); [contradiction | reflexivity].
  - destruct (String.eqb_spec k0 k) as [->|Hk]; simpl.
    + destruct (String.eqb_spec k k'); [contradiction | reflexivity].
    + now rewrite IH.
Qed.

(** [Object.assign] of properties that are all new appends them in order. *)
Lemma obj_assign_fresh (source : Obj V) : forall target : Obj V,
  wf_obj source ->
  (forall k, k ∈ obj_keys source -> obj_get target k = None) ->
  obj_assign target source = target ++ source.
Proof.
  unfold obj_assign, wf_obj.
  induction source as [|[k v] source IH]; intros target Hnd Hfresh; simpl.
  - now rewrite app_nil_r.
  - simpl in Hnd. apply NoDup_cons in Hnd as [Hk Hnd].
    rewrite obj_set_fresh by (apply Hfresh; simpl; apply elem_of_cons; now left).
    rewrite IH; [now rewrite <- app_assoc | exact Hnd |].
    intros k' Hk'. rewrite obj_get_app, Hfresh by (simpl; apply elem_of_cons; now right).
    simpl. destruct (String.eqb_spec k k') as [->|_]; [|reflexivity].
    contradiction.
Qed.

(** Copying an object into a new one gives the same properties in the same
    order. *)
Corollary obj_assign_copy o : wf_obj o -> obj_assign [] o = o.
Proof. intros H. now apply (obj_assign_fresh o []). Qed.

End ObjFacts.

(** ** Default fields *)

Section DefaultFields.
Import Js Fields Expected Sample.

(** The object [addTimestamps] builds in [tail] is the list of the enabled
    synthetic fields. *)
Lemma addTimestamps_tail fields options :
  addTimestamps fields options =
  obj_assign (obj_assign [] fields) (synthetic options).
Proof.
  unfold addTimestamps, synthetic. simpl.
  destruct (not_false (createdAt options)), (not_false (updatedAt options)),
    (not_false (deletedAt options)); reflexivity.
Qed.

Lemma synthetic_wf options : wf_obj (synthetic options).
Proof.
  unfold wf_obj, synthetic. simpl.
  destruct (not_false (createdAt options)), (not_false (updatedAt options)),
    (not_false (deletedAt options)); simpl;
    apply (bool_decide_unpack _); vm_compute; exact I.
Qed.

(** Which names the augmenter adds: those whose flag is not [false]. *)
Lemma synthetic_keys options :
  obj_keys (synthetic options) =
  (if not_false (createdAt options) then ["createdAt"] else []) ++
  (if not_false (updatedAt options) then ["updatedAt"] else []) ++
  (if not_false (deletedAt options) then ["deletedAt"] else []).
Proof.
  unfold synthetic. simpl.
  destruct (not_false (createdAt options)), (not_false (updatedAt options)),
    (not_false (deletedAt options)); reflexivity.
Qed.

(** What the added descriptors say: a date, marked generated, not nullable
    except for [deletedAt], which leaves nullability to the ORM's default. *)
Lemma synthetic_descriptors options k d :
  (k, d) ∈ synthetic options ->
  type d = Some DATE /\ _autoGenerated d = Some true /\
  allowNull d = (if String.eqb k "deletedAt" then None else Some false).
Proof.
  unfold synthetic. simpl.
  destruct (not_false (createdAt options)), (not_false (updatedAt options)),
    (not_false (deletedAt options)); simpl; intros H;
    repeat (apply elem_of_cons in H as [H|H]; [injection H as -> ->; now simpl|]);
    now apply elem_of_nil in H.
Qed.

(** With a truthy [timestamps] flag the declared fields come first, in
    their order, followed by the enabled synthetic fields, provided the
    model declares none of those names itself. *)
Lemma addTimestamps_appends fields options :
  wf_obj fields ->
  Forall (fun k => obj_get fields k = None) (obj_keys (synthetic options)) ->
  addTimestamps fields options = fields ++ synthetic options.
Proof.
  intros Hwf Hfresh.
  rewrite addTimestamps_tail, obj_assign_copy by exact Hwf.
  apply obj_assign_fresh; [apply synthetic_wf|].
  intros k Hk. rewrite Forall_forall in Hfresh. now apply Hfresh.
Qed.




(** Through [define] the flag is [true] unless the model set it to
    [false], so there the fields are added whenever it is not [false]. *)
Lemma define_fields_appends fields options :
  wf_obj fields ->
  Forall (fun k => obj_get fields k = None) (obj_keys (synthetic options)) ->
  define_fields fields options =
    if not_false (timestamps options) then fields ++ synthetic options else fields.
Proof.
  intros Hwf Hfresh. unfold define_fields, addDefaultFields.
  assert (truthy (timestamps (define_options options)) = not_false (timestamps options))
    as -> by (unfold define_options; simpl;
              destruct (timestamps options) as [| |[]| |]; reflexivity).
  destruct (not_false (timestamps options)); [|reflexivity].
  now rewrite (addTimestamps_appends fields (define_options options) Hwf Hfresh).
Qed.

End DefaultFields.

(** ** Unique-index groups *)

Section UniqueIndices.
Import Js Fields Indices Sample.

(** C9 at the failing input: fields [a] and [b] share a uniqueness group
    that is named like the column of the boolean-unique third field, [c].
    The accumulator keys groups by name and singletons by column, so the
    singleton overwrites the group: the result is [[c]], not
    [[a, b], [c]]. *)
Theorem uniqueIndices_group_named_like_column :
  uniqueIndices (grouped "c" "c") = [[Str "c"]]
  /\ uniqueIndices (grouped "c" "c") <> [[Str "a"; Str "b"]; [Str "c"]].
Proof. split; [reflexivity | discriminate]. Qed.

(** A group named ["true"] hides every boolean-unique field, because
    [acc[true]] reads the property ["true"]. *)
Example uniqueIndices_group_named_true :
  uniqueIndices (grouped "true" "c") = [[Str "a"; Str "b"]].
Proof. reflexivity. Qed.

(** When the names do not meet (and none of them is an array index, which
    JavaScript would enumerate first), the groups are as the specification
    describes them: the named group with its members in field order, then
    the singleton of the boolean-unique field. *)
Lemma uniqueIndices_three_fields ka kb kc a b c group :
  group <> EmptyString -> group <> "true" -> group <> c ->
  uniqueIndices
    [(ka, attribute a (Str group)); (kb, attribute b (Str group));
     (kc, attribute c (Bool true))]
  = [[Str a; Str b]; [Str c]].
Proof.
  intros Hne Htrue Hc.
  apply String.eqb_neq in Hne, Htrue, Hc.
  unfold uniqueIndices, Lodash.transform, Lodash.filter, Lodash.map. simpl.
  rewrite Hne. simpl. rewrite !String.eqb_refl. simpl.
  rewrite Htrue. simpl. rewrite Hc. reflexivity.
Qed.

(** Groups come in order of discovery: a boolean-unique field that precedes
    the group members comes first. *)
Lemma uniqueIndices_order_of_discovery ka kb kc a b c group :
  group <> EmptyString -> group <> "true" -> group <> c ->
  uniqueIndices
    [(kc, attribute c (Bool true)); (ka, attribute a (Str group));
     (kb, attribute b (Str group))]
  = [[Str c]; [Str a; Str b]].
Proof.
  intros Hne Htrue Hc.
  apply String.eqb_neq in Hne, Htrue.
  assert (String.eqb c group = false) as Hc'
    by (apply String.eqb_neq; congruence).
  unfold uniqueIndices, Lodash.transform, Lodash.filter, Lodash.map. simpl.
  rewrite Hne. simpl. rewrite Hc'. simpl. rewrite !String.eqb_refl. simpl.
  rewrite Hc'. reflexivity.
Qed.

End UniqueIndices.

(** ** Method-result normalisation *)

Section Normaliser.
Import Js Wrap Expected Sample.
Variable Promise : PromiseCtor.

Lemma obj_get_app_skip {V} (processed rest : Obj V) k :
  k ∉ obj_keys processed -> obj_get (processed ++ rest) k = obj_get rest k.
Proof.
  intros H. apply obj_get_None_keys in H. now rewrite obj_get_app, H.
Qed.

Lemma obj_set_app_skip {V} (processed rest : Obj V) k old new :
  k ∉ obj_keys processed ->
  obj_set (processed ++ (k, old) :: rest) k new = processed ++ (k, new) :: rest.
Proof.
  induction processed as [|[k' v'] processed IH]; simpl; intros H.
  - now rewrite String.eqb_refl.
  - apply not_elem_of_cons in H as [Hne H].
    destruct (String.eqb_spec k' k) as [->|_]; [contradiction|].
    now rewrite IH.
Qed.

(** What the wrapper does with the original's completion. *)
Lemma wrapper_result value this arguments :
  wrapper value Promise this arguments =
  match value this arguments with
  | Throw e => Throw e
  | Return r =>
      if truthy r && has_function r "catch"
      then Return (Promise_resolve Promise r) else Return r
  end.
Proof.
  unfold wrapper. destruct (value this arguments) as [r|e]; [|reflexivity].
  destruct (truthy r), (has_function r "catch"); reflexivity.
Qed.

(** A promise of the canonical constructor is returned as it is, so
    wrapping a wrapped method changes no result. *)
Lemma wrapper_twice value this arguments :
  wrapper (wrapper value Promise) Promise this arguments =
  wrapper value Promise this arguments.
Proof.
  rewrite (wrapper_result (wrapper value Promise)), wrapper_result.
  destruct (value this arguments) as [r|e]; [|reflexivity].
  destruct (truthy r && has_function r "catch") eqn:E; [|now rewrite E].
  assert (same_ctor Promise Promise = true) as Hsame by now destruct Promise.
  unfold Promise_resolve.
  destruct r as [v|members|ctor source]; simpl; rewrite ?Hsame; try reflexivity.
  destruct (same_ctor ctor Promise) eqn:Hc; simpl; rewrite ?Hc, ?Hsame; reflexivity.
Qed.

(** One [forEach] over the own keys of a table rewrites every entry once,
    and the descriptor it destructures is always there. *)
Lemma wrapEach_from (rest : Obj Property) : forall processed : Obj Property,
  wf_obj (processed ++ rest) ->
  wrapEach (obj_keys rest) (processed ++ rest) Promise =
  Return (processed ++ List.map (wrap_property Promise) rest).
Proof.
  induction rest as [|[k p] rest IH]; intros processed Hwf; simpl.
  - reflexivity.
  - assert (k ∉ obj_keys processed) as Hk.
    { unfold wf_obj, obj_keys in Hwf. rewrite map_app in Hwf.
      apply NoDup_app in Hwf as (_ & Hdisj & _).
      intros Hin. apply (Hdisj k Hin). simpl. apply elem_of_cons. now left. }
    assert (forall q, wf_obj ((processed ++ [(k, q)]) ++ rest)) as Hwf'.
    { intros q. unfold wf_obj, obj_keys in *.
      rewrite <- app_assoc. rewrite map_app in *. exact Hwf. }
    unfold wrapMethod, wrap_property. simpl.
    destruct (String.eqb k "constructor") eqn:Hctor.
    + specialize (IH (processed ++ [(k, p)]) (Hwf' p)).
      rewrite <- app_assoc in IH. simpl in IH. rewrite IH.
      rewrite <- app_assoc. simpl. now destruct p.
    + rewrite obj_get_app_skip by exact Hk. simpl. rewrite String.eqb_refl.
      destruct p as [f|v|].
      * rewrite obj_set_app_skip by exact Hk.
        specialize (IH (processed ++ [(k, FunctionValue (wrapper f Promise))])
                      (Hwf' _)).
        rewrite <- app_assoc in IH. simpl in IH. rewrite IH.
        now rewrite <- app_assoc.
      * specialize (IH (processed ++ [(k, OtherValue v)]) (Hwf' _)).
        rewrite <- app_assoc in IH. simpl in IH. rewrite IH.
        now rewrite <- app_assoc.
      * specialize (IH (processed ++ [(k, Accessor)]) (Hwf' _)).
        rewrite <- app_assoc in IH. simpl in IH. rewrite IH.
        now rewrite <- app_assoc.
Qed.

Lemma wrapEach_own_keys (object : Obj Property) :
  wf_obj object ->
  wrapEach (obj_keys object) object Promise =
  Return (List.map (wrap_property Promise) object).
Proof. intros H. exact (wrapEach_from object [] H). Qed.

(** On well-formed tables (of writable properties, as [Property] has
    them) the walk of [wrapMethods] completes and rewrites every table of
    the chain. *)
Lemma wrapMethods_classes Model :
  Forall wf_obj (tables Model) ->
  wrapMethods Model Promise = Return (wrap_classes Promise Model).
Proof.
  induction Model as [| |prototype statics parent IH]; simpl; intros Hwf;
    [reflexivity | reflexivity |].
  apply Forall_cons in Hwf as [Hp Hwf]. apply Forall_cons in Hwf as [Hs Hwf].
  rewrite (wrapEach_own_keys prototype Hp), (wrapEach_own_keys statics Hs).
  now rewrite (IH Hwf).
Qed.

Lemma tables_wrap_classes Model :
  tables (wrap_classes Promise Model) =
  List.map (List.map (wrap_property Promise)) (tables Model).
Proof.
  induction Model as [| |prototype statics parent IH]; simpl;
    [reflexivity | reflexivity | now rewrite IH].
Qed.

Lemma obj_get_wrapped (object : Obj Property) key :
  obj_get (List.map (wrap_property Promise) object) key =
  match obj_get object key with
  | Some p => Some (snd (wrap_property Promise (key, p)))
  | None => None
  end.
Proof.
  induction object as [|[k p] object IH]; simpl; [reflexivity|].
  assert (fst (wrap_property Promise (k, p)) = k) as Hfst.
  { unfold wrap_property. simpl. destruct p; try reflexivity.
    now destruct (String.eqb k "constructor"). }
  destruct (wrap_property Promise (k, p)) as [k' p'] eqn:E. simpl in Hfst. subst k'.
  simpl. destruct (String.eqb_spec k key) as [->|_]; [|exact IH].
  now rewrite E.
Qed.

End Normaliser.

Section NormaliserClaims.
Import Js Wrap Expected Sample.

(** C10, as amended: after [wrapMethods], every own function-valued
    property other than [constructor], in the prototype and the statics of
    the model class and of its ancestors below the base class, holds a
    method that propagates a synchronous throw of the original unchanged,
    returns the original's result unchanged when that result is falsy or
    has no function-valued [catch], and returns [Promise.resolve(result)]
    of the canonical constructor when the result is truthy and has a
    function-valued [catch]. *)
Theorem wrapMethods_normalises_results (Model : Ctor) (Promise : PromiseCtor) :
  Forall wf_obj (tables Model) ->
  exists Model',
    wrapMethods Model Promise = Return Model' /\
    Forall2
      (fun table table' =>
         forall key value,
           key <> "constructor" ->
           obj_get table key = Some (FunctionValue value) ->
           exists wrapped,
             obj_get table' key = Some (FunctionValue wrapped) /\
             forall this arguments,
               (forall e, value this arguments = Throw e ->
                          wrapped this arguments = Throw e) /\
               (forall r, value this arguments = Return r ->
                          truthy r = false \/ has_function r "catch" = false ->
                          wrapped this arguments = Return r) /\
               (forall r, value this arguments = Return r ->
                          truthy r = true -> has_function r "catch" = true ->
                          wrapped this arguments = Return (Promise_resolve Promise r)))
      (tables Model) (tables Model').
Proof.
  intros Hwf. exists (wrap_classes Promise Model).
  split; [now apply wrapMethods_classes|].
  rewrite tables_wrap_classes. apply Forall2_fmap_r, Forall_Forall2_diag.
  apply Forall_forall. intros table _ key value Hkey Hget.
  exists (wrapper value Promise). split.
  - rewrite obj_get_wrapped, Hget. unfold wrap_property. simpl.
    apply String.eqb_neq in Hkey. now rewrite Hkey.
  - intros this arguments. rewrite wrapper_result.
    repeat split.
    + intros e ->. reflexivity.
    + intros r -> [H|H]; rewrite H; [reflexivity | now rewrite andb_false_r].
    + intros r -> Ht Hc. now rewrite Ht, Hc.
Qed.

Lemma wrapMethods_normalises_results_witness :
  exists Model',
    wrapMethods Account SequelizePromise = Return Model' /\
    invoke (nth 0 (tables Model') []) "label" (Plain Null) [] =
      Some (Return (Plain (Str "account"))) /\
    invoke (nth 1 (tables Model') []) "load" (Plain Null) [] =
      Some (Return (PromiseOf SequelizePromise native)).
Proof.
  destruct (wrapMethods_normalises_results Account SequelizePromise) as (Model' & Hrun & _).
  - repeat constructor; apply (bool_decide_unpack _); vm_compute; exact I.
  - exists Model'. split; [exact Hrun|].
    vm_compute in Hrun. injection Hrun as <-. split; reflexivity.
Defined.

(** C10 as stated fails in both directions, because the wrapper looks for
    [catch], not for [then]: a thenable without a [catch] method is handed
    back as it is, not coerced, and a value with a [catch] method that is
    no thenable is coerced. *)
Lemma wrapper_tests_catch_not_then :
  (thenable bare_thenable = true /\
   wrapper (fun _ _ => Return bare_thenable) SequelizePromise (Plain Null) [] =
     Return bare_thenable /\
   Promise_resolve SequelizePromise bare_thenable <> bare_thenable)
  /\
  (thenable catcher = false /\
   wrapper (fun _ _ => Return catcher) SequelizePromise (Plain Null) [] =
     Return (PromiseOf SequelizePromise catcher) /\
   PromiseOf SequelizePromise catcher <> catcher).
Proof. repeat split; (reflexivity || discriminate). Qed.

(** The same through [wrapMethods] on a model class. *)
Example Account_after_wrapMethods :
  match wrapMethods Account SequelizePromise with
  | Return (Class prototype statics _) =>
      invoke prototype "lazy" (Plain Null) [] = Some (Return bare_thenable) /\
      invoke prototype "guarded" (Plain Null) [] =
        Some (Return (PromiseOf SequelizePromise catcher)) /\
      obj_keys prototype = ["constructor"; "label"; "lazy"; "guarded"]
  | _ => False
  end.
Proof. repeat split; reflexivity. Qed.

End NormaliserClaims.

(** ** The start-up sequence *)

(** Runs one step of a computation whose completion the goal inspects. *)
Ltac run_step :=
  match goal with
  | |- context [match ?m ?w with (_, _) => _ end] =>
      destruct (m w) as [[?|?] ?] eqn:?; simpl
  end.

Section Startup.
Import Js Sqlize Expected.
Variable settings : Settings.
Variable pkg : Package.
Variable isProduction : bool.
Variable super_model : string -> Completion (option ModelClass).
Variable authenticate : M unit.
Variable databaseVersion : M string.
Variable umzug_up : M unit.
Variable umzug_executed : M (list Migration).
Variable SemVer : Type.
Variable semver_coerce : string -> option SemVer.
Variable semver_satisfies : option SemVer -> string -> bool.
Local Open Scope js_scope.

Local Abbreviation initialize :=
  (initialize settings pkg isProduction super_model authenticate databaseVersion
     umzug_up umzug_executed SemVer semver_coerce semver_satisfies).
Local Abbreviation steps_1_to_3 :=
  (steps_1_to_3 settings pkg isProduction authenticate databaseVersion umzug_up
     umzug_executed SemVer semver_coerce semver_satisfies).
Local Abbreviation checkDatabaseVersion :=
  (checkDatabaseVersion settings pkg databaseVersion SemVer semver_coerce
     semver_satisfies).

(** [initialize] is its first three steps followed by the test on the
    executed files, the log line, the seeding and [return this]. *)
Lemma initialize_after_steps otherDb w :
  initialize otherDb w =
  match steps_1_to_3 otherDb w with
  | (Return migrations, w3) =>
      if (length (List.map file migrations) =? 0)%nat
      then (Return ReturnedUndefined, w3)
      else
        (logger LevelInfo [("migrations", LStrings (List.map file migrations))]
           ["🗄️  Executed migrations:" +:+ newline;
            String.concat newline (List.map file migrations)] ;;
         initSystemMeta super_model [("versions", [])] None ;;
         ret ReturnedThis) w3
  | (Throw e, w') => (Throw e, w')
  end.
Proof.
  unfold Sqlize.initialize, Expected.steps_1_to_3, bind, set_dollar_sequelize.
  simpl. do 3 (run_step; [|reflexivity]).
  destruct (length (List.map file _) =? 0)%nat; reflexivity.
Qed.

(** Looking up [SystemMeta] when it is among the registered models. *)
Lemma model_registered w models Model name :
  dollar_models w = Some models -> models !! name = Some Model ->
  model super_model name w = (Return (Some Model), w).
Proof. intros Hm Hl. unfold model. now rewrite Hm, Hl. Qed.

(** Before [register] the lookup itself throws: [this.$models] is
    undefined. *)
Lemma model_before_register w name :
  dollar_models w = None ->
  model super_model name w = (Throw (undefined_property name), w).
Proof. intros Hm. unfold model. now rewrite Hm. Qed.

(** Seeding with [SystemMeta] registered: the [versions] row is inserted
    with the empty mapping unless a row of that name exists. *)
Lemma initSystemMeta_versions w models Model :
  dollar_models w = Some models -> models !! "SystemMeta" = Some Model ->
  initSystemMeta super_model [("versions", [])] None w =
  (Return (Some [mkInstance "versions" []]), seeded w).
Proof.
  intros Hm Hl. unfold initSystemMeta, bind.
  rewrite (model_registered _ _ _ _ Hm Hl). reflexivity.
Qed.

(** Seeding twice is seeding once. *)
Lemma seeded_idempotent w : seeded (seeded w) = seeded w.
Proof.
  unfold seeded, set_systemMeta. simpl.
  destruct (systemMeta w !! "versions") eqn:E; simpl.
  - now rewrite E.
  - now rewrite lookup_insert_eq.
Qed.

(** An error of the ORM's own lookup reaches the caller of
    [initSystemMeta]. *)
Lemma initSystemMeta_lookup_error records options w models e :
  dollar_models w = Some models -> models !! "SystemMeta" = None ->
  super_model "SystemMeta" = Throw e ->
  initSystemMeta super_model records options w = (Throw e, w).
Proof.
  intros Hm Hl Hs. unfold initSystemMeta, bind, model. now rewrite Hm, Hl, Hs.
Qed.

(** When migrations were executed and [SystemMeta] is registered, the run
    logs the files, seeds the [versions] row and returns the manager. *)
Lemma initialize_with_migrations otherDb w migrations w3 models Model :
  steps_1_to_3 otherDb w = (Return migrations, w3) ->
  migrations <> [] ->
  dollar_models w3 = Some models -> models !! "SystemMeta" = Some Model ->
  exists w',
    initialize otherDb w = (Return ReturnedThis, w') /\
    systemMeta w' = systemMeta (seeded w3).
Proof.
  intros Hsteps Hne Hm Hl. rewrite initialize_after_steps, Hsteps.
  destruct migrations as [|m migrations]; [contradiction|]. simpl.
  unfold bind, logger. simpl.
  erewrite initSystemMeta_versions by (simpl; eassumption).
  eexists. split; reflexivity.
Qed.

(** C1, at the inputs where it fails: in every run in which authentication
    succeeds, the engine-version check passes and the migration runner
    succeeds but reports no executed migration, [initialize] ends at the
    bare [return] after the test on the file list and gives back
    [undefined], not the connection manager. *)
Theorem initialize_returns_undefined_without_migrations otherDb w migrations w3 :
  steps_1_to_3 otherDb w = (Return migrations, w3) ->
  migrations = [] ->
  initialize otherDb w = (Return ReturnedUndefined, w3).
Proof.
  intros Hsteps ->. now rewrite initialize_after_steps, Hsteps.
Qed.

(** C2, at the inputs where it fails: in every such run without executed
    migrations [initialize] stops before the meta-seeding step, so the
    [SystemMeta] table is left as the migrations left it and a missing
    [versions] row stays missing. *)
Theorem initialize_skips_seeding_without_migrations otherDb w w3 :
  steps_1_to_3 otherDb w = (Return [], w3) ->
  systemMeta w3 !! "versions" = None ->
  exists result w',
    initialize otherDb w = (Return result, w') /\
    systemMeta w' = systemMeta w3 /\
    systemMeta w' !! "versions" = None.
Proof.
  intros Hsteps Hnone. exists ReturnedUndefined, w3.
  rewrite initialize_after_steps, Hsteps. simpl. auto.
Qed.

(** C6: for a range recorded for the active dialect and a version the
    query interface reports, [checkDatabaseVersion] returns normally when
    the coerced version satisfies the range, and otherwise logs an error
    entry and then throws an error whose message is
    ["<package>" requires <dialect> <range>], which names the range and the
    dialect. *)
Theorem checkDatabaseVersion_enforces_range w version w1 ranges range :
  databaseVersion w = (Return version, w1) ->
  engines pkg = Some ranges ->
  ranges !! dialect settings = Some range ->
  range <> EmptyString ->
  let reported :=
    mkLog LevelInfo [("version", LString version)]
      [dialect settings +:+ " version:"; version] in
  let err :=
    mkError (quote +:+ pkg_name pkg +:+ quote +:+ " requires " +:+ dialect settings
             +:+ " " +:+ range) Undefined in
  let refused :=
    mkLog LevelError [("version", LString version); ("required", LString range)]
      [message err] in
  (semver_satisfies (semver_coerce version) range = true ->
     checkDatabaseVersion w =
       (Return ReturnedThis,
        mkWorld (log w1 ++ [reported]) (emitted w1) (dollar_models w1)
          (dollar_sequelize w1) (systemMeta w1)))
  /\ (semver_satisfies (semver_coerce version) range = false ->
        checkDatabaseVersion w =
          (Throw err,
           mkWorld ((log w1 ++ [reported]) ++ [refused]) (emitted w1) (dollar_models w1)
             (dollar_sequelize w1) (systemMeta w1)))
  /\ mentions range (message err)
  /\ mentions (dialect settings) (message err).
Proof.
  intros Hversion Hengines Hrange Hne reported err refused.
  apply String.eqb_neq in Hne.
  assert (forall a b c, (a +:+ b) +:+ c = a +:+ b +:+ c) as Hassoc.
  { intros a b c. induction a as [|ch a IH]; [reflexivity|].
    change (String ch ((a +:+ b) +:+ c) = String ch (a +:+ b +:+ c)). now f_equal. }
  repeat split.
  - intros Hsat. unfold Sqlize.checkDatabaseVersion, bind.
    rewrite Hversion. simpl. rewrite Hengines, Hrange. simpl.
    rewrite Hne, Hsat. reflexivity.
  - intros Hsat. unfold Sqlize.checkDatabaseVersion, bind.
    rewrite Hversion. simpl. rewrite Hengines, Hrange. simpl.
    rewrite Hne, Hsat. reflexivity.
  - exists (quote +:+ pkg_name pkg +:+ quote +:+ " requires " +:+ dialect settings +:+ " "),
      EmptyString.
    assert (forall a, a +:+ EmptyString = a) as Hnil.
    { intros a. induction a as [|ch a IH]; [reflexivity|].
      change (String ch (a +:+ EmptyString) = String ch a). now f_equal. }
    subst err. cbn [message]. now rewrite !Hassoc, Hnil.
  - exists (quote +:+ pkg_name pkg +:+ quote +:+ " requires "), (" " +:+ range).
    subst err. cbn [message]. now rewrite !Hassoc.
Qed.

(** An empty range string counts as no requirement: the check passes
    whatever the version. *)
Lemma checkDatabaseVersion_empty_range w version w1 ranges :
  databaseVersion w = (Return version, w1) ->
  engines pkg = Some ranges ->
  ranges !! dialect settings = Some EmptyString ->
  fst (checkDatabaseVersion w) = Return ReturnedThis.
Proof.
  intros Hversion Hengines Hrange. unfold Sqlize.checkDatabaseVersion, bind.
  rewrite Hversion. simpl. now rewrite Hengines, Hrange.
Qed.

End Startup.

Section StartupExamples.
Import Js Sqlize Expected Sample.

Lemma initialize_returns_undefined_without_migrations_witness :
  run [] registered =
  (Return ReturnedUndefined,
   snd (steps_1_to_3 settings pkg false (ret tt) (ret "12.3.0") (ret tt) (ret [])
          string coerce satisfies (mkOtherDb None) registered)).
Proof.
  apply (initialize_returns_undefined_without_migrations settings pkg false no_model
           (ret tt) (ret "12.3.0") (ret tt) (ret []) string coerce satisfies
           (mkOtherDb None) registered []);
    [vm_compute; reflexivity | reflexivity].
Defined.

Lemma initialize_skips_seeding_without_migrations_witness :
  exists result w',
    run [] registered = (Return result, w') /\
    systemMeta w' = ∅ /\
    systemMeta w' !! "versions" = None.
Proof.
  apply (initialize_skips_seeding_without_migrations settings pkg false no_model
           (ret tt) (ret "12.3.0") (ret tt) (ret []) string coerce satisfies
           (mkOtherDb None) registered
           (snd (steps_1_to_3 settings pkg false (ret tt) (ret "12.3.0") (ret tt) (ret [])
                   string coerce satisfies (mkOtherDb None) registered)));
    vm_compute; reflexivity.
Defined.

(** The same run with one executed migration returns the manager and
    seeds the row. *)
Example initialize_after_one_migration :
  fst (run [mkMigration "001-init.js"] registered) = Return ReturnedThis /\
  systemMeta (snd (run [mkMigration "001-init.js"] registered)) !! "versions" = Some [].
Proof. split; vm_compute; reflexivity. Qed.

(** C3, at the inputs where it fails: when models have been registered,
    none of them under the name [SystemMeta], and the ORM has no model
    defined under that name either, the lookup in [initSystemMeta] does not
    come back with a falsy value: the ORM's [model] throws
    [SystemMeta has not been defined], the guard [if (!SystemMeta) return]
    is never reached, and [initSystemMeta] ends with that error instead of
    returning; nothing is persisted. *)
Theorem initSystemMeta_throws_without_SystemMeta records options w models defined :
  dollar_models w = Some models ->
  models !! "SystemMeta" = None ->
  defined !! "SystemMeta" = None ->
  initSystemMeta (Sequelize.model defined) records options w =
  (Throw (mkError "SystemMeta has not been defined" Undefined), w).
Proof.
  intros Hm Hl Hd.
  apply (initSystemMeta_lookup_error (Sequelize.model defined) records options w models);
    [exact Hm | exact Hl |].
  unfold Sequelize.model. now rewrite Hd.
Qed.

Lemma initSystemMeta_throws_without_SystemMeta_witness :
  initSystemMeta (Sequelize.model {[ "Account" := mkModel "Account" ]})
    [("versions", [])] None without_SystemMeta =
  (Throw (mkError "SystemMeta has not been defined" Undefined), without_SystemMeta).
Proof.
  apply (initSystemMeta_throws_without_SystemMeta [("versions", [])] None
           without_SystemMeta {[ "Account" := mkModel "Account" ]}
           {[ "Account" := mkModel "Account" ]});
    vm_compute; reflexivity.
Defined.

(** On a manager that never registered models the lookup, and with it the
    seeding, throws. *)
Example initSystemMeta_before_register :
  fst (initSystemMeta no_model [("versions", [])] None constructed) =
  Throw (undefined_property "SystemMeta").
Proof. reflexivity. Qed.

Lemma checkDatabaseVersion_enforces_range_witness :
  fst (checkDatabaseVersion settings pkg (ret "12.3.0") string coerce satisfies registered)
    = Return ReturnedThis
  /\ fst (checkDatabaseVersion settings pkg (ret "9.6.0") string coerce satisfies registered)
    = Throw (mkError (quote +:+ "sync-sequelize-salesforce" +:+ quote +:+
                      " requires postgres 12.3.0") Undefined).
Proof.
  split.
  - destruct (checkDatabaseVersion_enforces_range settings pkg (ret "12.3.0") string
                coerce satisfies registered "12.3.0" registered
                {[ "postgres" := "12.3.0" ]} "12.3.0")
      as (Hinside & _); [reflexivity | reflexivity | vm_compute; reflexivity
                         | discriminate |].
    now rewrite (Hinside eq_refl).
  - destruct (checkDatabaseVersion_enforces_range settings pkg (ret "9.6.0") string
                coerce satisfies registered "9.6.0" registered
                {[ "postgres" := "12.3.0" ]} "12.3.0")
      as (_ & Houtside & _); [reflexivity | reflexivity | vm_compute; reflexivity
                              | discriminate |].
    now rewrite (Houtside eq_refl).
Defined.

End StartupExamples.

(** ** Query errors *)

Section QueryErrors.
Import Js Sqlize Sample.
Variable QueryResult : Type.
Variable super_query : string -> option QueryOptions -> M QueryResult.

(** C5: when the ORM's query rejects with [err], [query] rejects with the
    same [err] after logging one error entry and emitting exactly one
    ["error"] event that carries [err]; when the ORM's query resolves, its
    result and state pass through unchanged. *)
Theorem query_rejection_emits_one_error sqlText options w :
  (forall err w1,
     super_query sqlText options w = (Throw err, w1) ->
     exists entry,
       query QueryResult super_query sqlText options w =
         (Throw err,
          mkWorld (log w1 ++ [entry]) (emitted w1 ++ [("error", err)]) (dollar_models w1)
            (dollar_sequelize w1) (systemMeta w1))
       /\ level entry = LevelError
       /\ text entry = ["🚨  Database error:"; message err]
       /\ obj_get (context entry) "err" = Some (LError err)
       /\ obj_get (context entry) "query" =
            (if truthy (sql err) then Some (LValue (sql err)) else None))
  /\ (forall result w1,
        super_query sqlText options w = (Return result, w1) ->
        query QueryResult super_query sqlText options w = (Return result, w1)).
Proof.
  split.
  - intros err w1 Hq. unfold query. rewrite Hq.
    eexists. split; [reflexivity|]. simpl.
    destruct (truthy (sql err)); repeat split; reflexivity.
  - intros result w1 Hq. unfold query. now rewrite Hq.
Qed.

End QueryErrors.

Lemma query_rejection_emits_one_error_witness :
  fst (Sqlize.query nat Sample.rejecting "SELECT 1 FORM t" None Sample.registered)
    = Throw Sample.syntax_error
  /\ emitted (snd (Sqlize.query nat Sample.rejecting "SELECT 1 FORM t" None Sample.registered))
    = [("error", Sample.syntax_error)]
  /\ Sqlize.query nat Sample.resolving "SELECT 1" None Sample.registered
    = (Return 3, Sample.registered).
Proof.
  destruct (query_rejection_emits_one_error nat Sample.rejecting "SELECT 1 FORM t" None
              Sample.registered) as [Hreject _].
  destruct (Hreject Sample.syntax_error Sample.registered eq_refl) as (entry & -> & _).
  destruct (query_rejection_emits_one_error nat Sample.resolving "SELECT 1" None
              Sample.registered) as [_ Hresolve].
  rewrite (Hresolve 3 Sample.registered eq_refl).
  repeat split.
Defined.

(** ** Version bookkeeping *)

Section Versions.
Import Js Sqlize Expected SystemMetaModel.
Variable super_model : string -> Completion (option ModelClass).
Variable parseISO : string -> Date.

Lemma split_free separator s :
  free_of separator s = true -> split separator s = [s].
Proof.
  induction s as [|c s IH]; simpl; [reflexivity|].
  destruct (Ascii.eqb c separator); simpl; [discriminate|].
  intros H. now rewrite (IH H).
Qed.

(** The key [setVersion] builds splits into [data] and the pieces of the
    model name. *)
Lemma split_data_path n :
  split "." (String.concat "." ["data"; n]) = "data" :: split "." n.
Proof. reflexivity. Qed.

Lemma getSystemMeta_registered name options w models Model :
  dollar_models w = Some models -> models !! "SystemMeta" = Some Model ->
  getSystemMeta super_model name options w = findOrCreate name options w.
Proof.
  intros Hm Hl. unfold getSystemMeta, bind.
  now rewrite (model_registered super_model w models Model "SystemMeta" Hm Hl).
Qed.

Lemma set_systemMeta_same w : set_systemMeta (systemMeta w) w = w.
Proof. now destruct w. Qed.

(** Reading [data[n]] off an instance. *)
Lemma get_data_entry sm n : get sm ["data"; n] = obj_get (data sm) n.
Proof. unfold get. simpl. now destruct (obj_get (data sm) n). Qed.

(** [getVersion] with [SystemMeta] registered, in closed form. *)
Lemma getVersion_registered this options w models Model :
  dollar_models w = Some models ->
  models !! "SystemMeta" = Some Model ->
  let record := default default_data (systemMeta w !! "versions") in
  let entry := obj_get record (name this) in
  getVersion super_model parseISO this options w =
    (Return (if json_truthy entry then parseISO_value parseISO entry else Time 0),
     set_systemMeta (<["versions" := record]> (systemMeta w)) w).
Proof.
  intros Hm Hl record entry.
  unfold getVersion, bind. rewrite (getSystemMeta_registered _ _ _ _ _ Hm Hl).
  unfold findOrCreate. subst entry record.
  destruct (systemMeta w !! "versions") as [d|] eqn:E; rewrite get_data_entry; simpl.
  - rewrite insert_id by exact E. now rewrite set_systemMeta_same.
  - reflexivity.
Qed.



End Versions.

Section VersionExamples.
Import Js Sqlize Sample.

(** C7 at the failing input: for a model named [crm.Account],
    [setVersion] joins the path into the key [data.crm.Account], which the
    ORM's [set] takes as three levels, while [getVersion] looks the name up
    as one key of [data]; the version written is not found and [getVersion]
    answers with the epoch, whatever [parseISO] makes of the version. *)
Theorem setVersion_getVersion_dotted_name
    (super_model : string -> Completion (option ModelClass))
    (parseISO : string -> Date) :
  exists sm w',
    setVersion super_model (mkModel "crm.Account") (JStr instant) None registered
      = (Return sm, w') /\
    systemMeta w' !! "versions" = Some [("crm", JObj [("Account", JStr instant)])] /\
    getVersion super_model parseISO (mkModel "crm.Account") None w'
      = (Return (Time 0), w').
Proof.
  eexists. eexists. split; [vm_compute; reflexivity|].
  split; vm_compute; reflexivity.
Qed.

(** The same version on a model whose name has no dot comes back. *)
Example setVersion_getVersion_Account :
  exists sm w',
    setVersion no_model (mkModel "Account") (JStr instant) None registered
      = (Return sm, w') /\
    getVersion no_model parse (mkModel "Account") None w'
      = (Return (Time 1577836800000), w').
Proof.
  eexists. eexists. split; vm_compute; reflexivity.
Qed.



End VersionExamples.

(** * Further properties *)

(** ** Default fields, declared names included *)

Section AssignFacts.
Import Js.
Context {V : Type}.

(** Reading after [Object.assign]: the source's property if it has one,
    the target's otherwise. *)
Lemma obj_get_assign (source : Obj V) : forall (target : Obj V) k,
  wf_obj source ->
  obj_get (obj_assign target source) k =
  match obj_get source k with Some v => Some v | None => obj_get target k end.
Proof.
  unfold obj_assign, wf_obj.
  induction source as [|[k0 v0] source IH]; intros target k Hwf; simpl; [reflexivity|].
  simpl in Hwf. apply NoDup_cons in Hwf as [Hk0 Hwf].
  rewrite (IH _ _ Hwf).
  destruct (String.eqb_spec k0 k) as [->|Hne].
  - apply obj_get_None_keys in Hk0. now rewrite Hk0, obj_get_set_same.
  - now rewrite obj_get_set_other by exact Hne.
Qed.

Lemma obj_set_keys (o : Obj V) k v :
  obj_keys (obj_set o k v) =
  if bool_decide (k ∈ obj_keys o) then obj_keys o else obj_keys o ++ [k].
Proof.
  case_bool_decide as Hin.
  - now apply obj_set_keys_present.
  - apply obj_get_None_keys in Hin. rewrite (obj_set_fresh _ _ _ Hin).
    unfold obj_keys. now rewrite map_app.
Qed.

(** The keys after [Object.assign]: the target's, then the source's new
    ones in the source's order. *)
Lemma obj_assign_keys (source : Obj V) : forall target : Obj V,
  wf_obj source ->
  obj_keys (obj_assign target source) =
  obj_keys target ++
  List.filter (fun k => negb (bool_decide (k ∈ obj_keys target))) (obj_keys source).
Proof.
  unfold obj_assign, wf_obj.
  induction source as [|[k0 v0] source IH]; intros target Hwf; simpl.
  - now rewrite app_nil_r.
  - simpl in Hwf. apply NoDup_cons in Hwf as [Hk0 Hwf].
    rewrite (IH _ Hwf), obj_set_keys.
    case_bool_decide as Hin; simpl; [reflexivity|].
    rewrite <- app_assoc. simpl. f_equal. f_equal.
    apply List.filter_ext_in. intros k Hk. f_equal.
    apply bool_decide_ext. rewrite elem_of_app, list_elem_of_singleton.
    split; [|now left].
    intros [H| ->]; [exact H|].
    exfalso. apply Hk0. now apply list_elem_of_In.
Qed.

End AssignFacts.

Section DefaultFieldsMore.
Import Js Fields Expected Sample.





End DefaultFieldsMore.

(** ** Method tables after one and after two walks *)

Section NormaliserMore.
Import Js Wrap Expected Sample.

Lemma wrapped_keys Promise (object : Obj Property) :
  obj_keys (List.map (wrap_property Promise) object) = obj_keys object.
Proof.
  unfold obj_keys. rewrite List.map_map. apply List.map_ext.
  intros [k p]. unfold wrap_property. simpl.
  destruct p; try reflexivity. now destruct (String.eqb k "constructor").
Qed.

Lemma wrapped_tables_wf Promise Model :
  Forall wf_obj (tables Model) -> Forall wf_obj (tables (wrap_classes Promise Model)).
Proof.
  rewrite tables_wrap_classes. intros H. apply Forall_fmap.
  eapply Forall_impl; [exact H|]. intros t Ht. unfold wf_obj in *. simpl.
  now rewrite wrapped_keys.
Qed.

(** X3: walking the same class a second time, as happens to an ancestor
    shared by two registered models, changes the behaviour of no method:
    [wrapMethods] succeeds both times, and every property of every table
    answers a call after the second walk exactly as after the first. *)
Theorem wrapMethods_twice Model Promise :
  Forall wf_obj (tables Model) ->
  exists once twice,
    wrapMethods Model Promise = Return once /\
    wrapMethods once Promise = Return twice /\
    Forall2
      (fun table table' =>
         obj_keys table' = obj_keys table /\
         forall key this arguments,
           invoke table' key this arguments = invoke table key this arguments)
      (tables once) (tables twice).
Proof.
  intros Hwf. exists (wrap_classes Promise Model), (wrap_classes Promise (wrap_classes Promise Model)).
  split; [now apply wrapMethods_classes|].
  split; [now apply wrapMethods_classes, wrapped_tables_wf|].
  rewrite (tables_wrap_classes Promise (wrap_classes Promise Model)).
  apply Forall2_fmap_r, Forall_Forall2_diag.
  rewrite tables_wrap_classes. apply Forall_fmap, Forall_forall.
  intros table _. simpl. split; [apply wrapped_keys|].
  intros key this arguments. unfold invoke.
  rewrite (obj_get_wrapped Promise (List.map (wrap_property Promise) table)).
  rewrite obj_get_wrapped.
  destruct (obj_get table key) as [[f|v|]|]; try reflexivity.
  unfold wrap_property. simpl.
  destruct (String.eqb key "constructor"); simpl; [reflexivity|].
  now rewrite wrapper_twice.
Qed.

Lemma wrapMethods_twice_witness :
  exists once twice,
    wrapMethods Account SequelizePromise = Return once /\
    wrapMethods once SequelizePromise = Return twice /\
    invoke (nth 1 (tables twice) []) "load" (Plain Null) [] =
      Some (Return (PromiseOf SequelizePromise native)).
Proof.
  destruct (wrapMethods_twice Account SequelizePromise) as (once & twice & H1 & H2 & _).
  - repeat constructor; apply (bool_decide_unpack _); vm_compute; exact I.
  - exists once, twice. split; [exact H1|]. split; [exact H2|].
    vm_compute in H1. injection H1 as <-.
    vm_compute in H2. injection H2 as <-. reflexivity.
Defined.

(** X4: a walk that completes has added or removed no property and has
    left [constructor], accessors and every property that holds no function
    exactly as they were, in every table of the chain. *)
Theorem wrapMethods_keeps_other_properties Model Promise Model' :
  Forall wf_obj (tables Model) ->
  wrapMethods Model Promise = Return Model' ->
  Forall2
    (fun table table' =>
       obj_keys table' = obj_keys table /\
       forall key,
         key = "constructor" \/ (forall f, obj_get table key <> Some (FunctionValue f)) ->
         obj_get table' key = obj_get table key)
    (tables Model) (tables Model').
Proof.
  intros Hwf Hrun.
  rewrite (wrapMethods_classes Promise Model Hwf) in Hrun. injection Hrun as <-.
  rewrite tables_wrap_classes. apply Forall2_fmap_r, Forall_Forall2_diag, Forall_forall.
  intros table _. split; [apply wrapped_keys|].
  intros key Hkey. rewrite obj_get_wrapped.
  destruct (obj_get table key) as [[f|v|]|] eqn:E; try reflexivity.
  unfold wrap_property. simpl. destruct Hkey as [->|Hnone].
  - reflexivity.
  - now destruct (Hnone f).
Qed.

Lemma wrapMethods_keeps_other_properties_witness :
  Forall2
    (fun table table' =>
       obj_keys table' = obj_keys table /\
       forall key,
         key = "constructor" \/ (forall f, obj_get table key <> Some (FunctionValue f)) ->
         obj_get table' key = obj_get table key)
    (tables Account) (tables (wrap_classes SequelizePromise Account)).
Proof.
  apply (wrapMethods_keeps_other_properties Account SequelizePromise
           (wrap_classes SequelizePromise Account)).
  - repeat constructor; apply (bool_decide_unpack _); vm_compute; exact I.
  - vm_compute. reflexivity.
Defined.

End NormaliserMore.

(** ** Picking properties *)

Section LoggedConfig.
Import Js Sqlize.

Lemma pick_lookup {V} (object : Obj V) (paths : list string) k :
  obj_get (pick object paths) k =
  if bool_decide (k ∈ paths) then obj_get object k else None.
Proof.
  unfold pick. induction paths as [|p paths IH]; simpl; [reflexivity|].
  rewrite obj_get_app, IH.
  destruct (String.eqb_spec p k) as [->|Hne].
  - rewrite (bool_decide_true (k ∈ k :: paths)) by (apply elem_of_cons; now left).
    destruct (obj_get object k) as [v|] eqn:E; simpl.
    + now rewrite String.eqb_refl.
    + case_bool_decide; reflexivity.
  - assert (bool_decide (k ∈ p :: paths) = bool_decide (k ∈ paths)) as ->.
    { apply bool_decide_ext. rewrite elem_of_cons.
      split; [intros [E|H]; [congruence | exact H] | auto]. }
    destruct (obj_get object p) as [v|]; simpl; [|reflexivity].
    destruct (String.eqb_spec p k); [contradiction | reflexivity].
Qed.

End LoggedConfig.

(** ** Inserts that skip taken names *)

Section Seeding.
Import Js Sqlize SystemMetaModel.
Variable super_model : string -> Completion (option ModelClass).

(** The table after an insert that skips taken names. *)
Lemma insert_missing_lookup (records : Obj (Obj Json)) :
  forall (table : gmap string (Obj Json)) name,
    fold_left insert_missing (List.map (fun r => mkInstance (fst r) (snd r)) records) table
      !! name =
    match table !! name with
    | Some d => Some d
    | None => obj_get records name
    end.
Proof.
  induction records as [|[k d] records IH]; intros table name; simpl.
  - now destruct (table !! name).
  - rewrite IH. unfold insert_missing. simpl.
    destruct (table !! k) as [d0|] eqn:Ek.
    + destruct (table !! name) as [dn|] eqn:En; [reflexivity|].
      destruct (String.eqb_spec k name) as [->|_]; [congruence | reflexivity].
    + destruct (String.eqb_spec k name) as [->|Hne].
      * now rewrite lookup_insert_eq, Ek.
      * now rewrite lookup_insert_ne by exact Hne.
Qed.

End Seeding.

(** ** Versions of several models *)

Section VersionsMore.
Import Js Sqlize Expected SystemMetaModel.
Variable super_model : string -> Completion (option ModelClass).
Variable parseISO : string -> Date.

(** [setVersion] with [SystemMeta] registered and a name without a dot, in
    closed form. *)
Lemma setVersion_registered this version options w models Model :
  dollar_models w = Some models ->
  models !! "SystemMeta" = Some Model ->
  free_of "." (name this) = true ->
  let record := default default_data (systemMeta w !! "versions") in
  setVersion super_model this version options w =
    (Return (mkInstance "versions" (obj_set record (name this) version)),
     set_systemMeta
       (<["versions" := obj_set record (name this) version]> (systemMeta w)) w).
Proof.
  intros Hm Hl Hfree record.
  unfold setVersion, bind. rewrite (getSystemMeta_registered _ _ _ _ _ _ Hm Hl).
  unfold findOrCreate, SystemMetaModel.set, save. subst record.
  rewrite split_data_path, (split_free _ _ Hfree).
  destruct (systemMeta w !! "versions") as [d|] eqn:E; simpl.
  - reflexivity.
  - unfold set_systemMeta. simpl. now rewrite insert_insert_eq.
Qed.

(** X8: setting the version of one model (whose name has no dot) changes
    the version [getVersion] reports for no other model. *)
Theorem setVersion_leaves_other_models this other version options w models Model :
  dollar_models w = Some models ->
  models !! "SystemMeta" = Some Model ->
  free_of "." (name this) = true ->
  name other <> name this ->
  exists sm w',
    setVersion super_model this version options w = (Return sm, w') /\
    fst (getVersion super_model parseISO other options w') =
    fst (getVersion super_model parseISO other options w).
Proof.
  intros Hm Hl Hfree Hne.
  eexists. eexists. split; [exact (setVersion_registered _ _ _ _ _ _ Hm Hl Hfree)|].
  rewrite (getVersion_registered super_model parseISO other options w models Model Hm Hl).
  erewrite (getVersion_registered super_model parseISO other options _ models Model);
    [|exact Hm|exact Hl].
  cbv zeta. simpl. rewrite lookup_insert_eq. cbn [default from_option id].
  rewrite obj_get_set_other by congruence. reflexivity.
Qed.

(** X9: without a [SystemMeta] model (none registered with the manager,
    none defined in the ORM) both version accessors are rejected with the
    ORM's error for an unknown model, before any statement is issued: the
    state is left as it was. *)
Theorem version_accessors_need_SystemMeta this version options w models defined :
  dollar_models w = Some models ->
  models !! "SystemMeta" = None ->
  defined !! "SystemMeta" = None ->
  getVersion (Sequelize.model defined) parseISO this options w =
    (Throw (mkError "SystemMeta has not been defined" Undefined), w)
  /\ setVersion (Sequelize.model defined) this version options w =
    (Throw (mkError "SystemMeta has not been defined" Undefined), w).
Proof.
  intros Hm Hl Hd.
  split; unfold getVersion, setVersion, getSystemMeta, bind, model, Sequelize.model;
    now rewrite Hm, Hl, Hd.
Qed.

End VersionsMore.

Section VersionWitnesses.
Import Js Sqlize Sample.


Lemma setVersion_leaves_other_models_witness :
  exists sm w',
    setVersion no_model (mkModel "Contact") (JStr "2021-06-01T00:00:00.000Z") None versioned
      = (Return sm, w') /\
    fst (getVersion no_model parse (mkModel "Account") None w') =
      Return (Time 1577836800000).
Proof.
  destruct (setVersion_leaves_other_models no_model parse (mkModel "Contact")
              (mkModel "Account") (JStr "2021-06-01T00:00:00.000Z") None versioned
              {[ "SystemMeta" := mkModel "SystemMeta"; "Account" := mkModel "Account" ]}
              (mkModel "SystemMeta") eq_refl)
    as (sm & w' & Hset & Hsame);
    [vm_compute; reflexivity | reflexivity | discriminate |].
  exists sm, w'. split; [exact Hset|]. rewrite Hsame. vm_compute. reflexivity.
Defined.

Lemma version_accessors_need_SystemMeta_witness :
  fst (getVersion (Sequelize.model {[ "Account" := mkModel "Account" ]}) parse
         (mkModel "Account") None without_SystemMeta) =
    Throw (mkError "SystemMeta has not been defined" Undefined)
  /\ setVersion (Sequelize.model {[ "Account" := mkModel "Account" ]})
       (mkModel "Account") (JStr instant) None without_SystemMeta =
    (Throw (mkError "SystemMeta has not been defined" Undefined), without_SystemMeta).
Proof.
  destruct (version_accessors_need_SystemMeta parse (mkModel "Account")
              (JStr instant) None without_SystemMeta {[ "Account" := mkModel "Account" ]}
              {[ "Account" := mkModel "Account" ]} eq_refl)
    as [Hget Hset]; [vm_compute; reflexivity | vm_compute; reflexivity |].
  split; [now rewrite Hget | exact Hset].
Defined.

End VersionWitnesses.

(** ** Where the start-up sequence stops *)

Section StartupMore.
Import Js Sqlize Expected.
Variable settings : Settings.
Variable pkg : Package.
Variable isProduction : bool.
Variable super_model : string -> Completion (option ModelClass).
Variable authenticate : M unit.
Variable databaseVersion : M string.
Variable umzug_up : M unit.
Variable umzug_executed : M (list Migration).
Variable SemVer : Type.
Variable semver_coerce : string -> option SemVer.
Variable semver_satisfies : option SemVer -> string -> bool.
Local Open Scope js_scope.

Local Abbreviation initialize :=
  (initialize settings pkg isProduction super_model authenticate databaseVersion
     umzug_up umzug_executed SemVer semver_coerce semver_satisfies).
Local Abbreviation steps_1_to_3 :=
  (steps_1_to_3 settings pkg isProduction authenticate databaseVersion umzug_up
     umzug_executed SemVer semver_coerce semver_satisfies).
Local Abbreviation checkDatabaseVersion :=
  (checkDatabaseVersion settings pkg databaseVersion SemVer semver_coerce
     semver_satisfies).

(** The state in which [authenticate] is awaited, and the state after the
    log line that follows it. *)
Local Abbreviation entered otherDb w :=
  (mkWorld (log w) (emitted w) (dollar_models w) (sequelize otherDb) (systemMeta w)).
Local Abbreviation connected w :=
  (mkWorld
     (log w ++
      [mkLog LevelInfo
         (List.map (fun kv => (fst kv, LValue (snd kv))) (getConfig settings))
         ["🗄️  Connected to database"]])
     (emitted w) (dollar_models w) (dollar_sequelize w) (systemMeta w)).

(** X10: when authentication fails, [initialize] rejects with that very
    error in the state authentication left: nothing is logged, the engine
    version is not asked for, no migration runs and nothing is seeded. *)
Theorem initialize_stops_when_authenticate_rejects otherDb w e w1 :
  authenticate (entered otherDb w) = (Throw e, w1) ->
  initialize otherDb w = (Throw e, w1).
Proof.
  intros Hauth. rewrite initialize_after_steps.
  unfold Expected.steps_1_to_3, bind, set_dollar_sequelize. now rewrite Hauth.
Qed.

(** The version check refusing an engine, in closed form. *)
Lemma checkDatabaseVersion_refuses w version w1 ranges range :
  databaseVersion w = (Return version, w1) ->
  engines pkg = Some ranges ->
  ranges !! dialect settings = Some range ->
  range <> EmptyString ->
  semver_satisfies (semver_coerce version) range = false ->
  let err :=
    mkError (quote +:+ pkg_name pkg +:+ quote +:+ " requires " +:+ dialect settings
             +:+ " " +:+ range) Undefined in
  checkDatabaseVersion w =
    (Throw err,
     mkWorld
       ((log w1 ++
         [mkLog LevelInfo [("version", LString version)]
            [dialect settings +:+ " version:"; version]]) ++
        [mkLog LevelError [("version", LString version); ("required", LString range)]
           [message err]])
       (emitted w1) (dollar_models w1) (dollar_sequelize w1) (systemMeta w1)).
Proof.
  intros Hversion Hengines Hrange Hne Hsat err.
  apply String.eqb_neq in Hne.
  unfold Sqlize.checkDatabaseVersion, bind.
  rewrite Hversion. simpl. rewrite Hengines, Hrange. simpl.
  rewrite Hne, Hsat. reflexivity.
Qed.

(** X11: when the engine is outside the required range, [initialize]
    rejects with the version error right after logging it; the migration
    runner is never started, so no migration is applied to an incompatible
    engine, and nothing is seeded. *)
Theorem initialize_stops_at_incompatible_engine otherDb w w1 version w2 ranges range :
  authenticate (entered otherDb w) = (Return tt, w1) ->
  databaseVersion (connected w1) = (Return version, w2) ->
  engines pkg = Some ranges ->
  ranges !! dialect settings = Some range ->
  range <> EmptyString ->
  semver_satisfies (semver_coerce version) range = false ->
  exists w',
    initialize otherDb w =
      (Throw (mkError (quote +:+ pkg_name pkg +:+ quote +:+ " requires " +:+
                       dialect settings +:+ " " +:+ range) Undefined), w')
    /\ systemMeta w' = systemMeta w2
    /\ emitted w' = emitted w2
    /\ exists reported refused,
         log w' = log w2 ++ [reported; refused] /\ level refused = LevelError.
Proof.
  intros Hauth Hversion Hengines Hrange Hne Hsat.
  rewrite initialize_after_steps.
  unfold Expected.steps_1_to_3, bind at 1 2 3 4, set_dollar_sequelize. rewrite Hauth.
  unfold logger at 1.
  rewrite (checkDatabaseVersion_refuses _ _ _ _ _ Hversion Hengines Hrange Hne Hsat).
  eexists. split; [reflexivity|]. simpl. repeat split.
  eexists. eexists. split; [now rewrite <- app_assoc | reflexivity].
Qed.

(** X12: when the package records no range for the dialect (no [engines]
    at all, or none for this dialect), [checkDatabaseVersion] accepts every
    reported version: it logs the version and returns the manager. *)
Theorem checkDatabaseVersion_without_requirement w version w1 :
  databaseVersion w = (Return version, w1) ->
  (engines pkg = None \/
   exists ranges, engines pkg = Some ranges /\ ranges !! dialect settings = None) ->
  checkDatabaseVersion w =
    (Return ReturnedThis,
     mkWorld
       (log w1 ++
        [mkLog LevelInfo [("version", LString version)]
           [dialect settings +:+ " version:"; version]])
       (emitted w1) (dollar_models w1) (dollar_sequelize w1) (systemMeta w1)).
Proof.
  intros Hversion Hnone. unfold Sqlize.checkDatabaseVersion, bind.
  rewrite Hversion. simpl.
  destruct Hnone as [->|(ranges & -> & ->)]; reflexivity.
Qed.

(** X14: outside production, when applying the pending migrations fails,
    [initialize] rejects with the runner's error in the state the runner
    left: the executed migrations are not asked for and nothing is
    seeded. *)
Theorem initialize_stops_when_migration_fails otherDb w w1 r w2 e w3 :
  isProduction = false ->
  authenticate (entered otherDb w) = (Return tt, w1) ->
  checkDatabaseVersion (connected w1) = (Return r, w2) ->
  umzug_up w2 = (Throw e, w3) ->
  initialize otherDb w = (Throw e, w3).
Proof.
  intros Hprod Hauth Hcheck Hup. rewrite initialize_after_steps.
  unfold Expected.steps_1_to_3, bind at 1 2 3 4, set_dollar_sequelize. rewrite Hauth.
  unfold logger at 1. rewrite Hcheck.
  unfold migrate, bind. rewrite Hprod. simpl. now rewrite Hup.
Qed.

End StartupMore.

(** X13: in production the pending migrations are never applied: whatever
    the runner's [up] would do, [migrate] only reports the executed
    migrations, and the whole of [initialize] runs the same. *)
Theorem initialize_in_production_never_applies
    settings pkg super_model authenticate databaseVersion (up up' : M unit) executed
    (SemVer : Type) coerce satisfies otherDb w :
  Sqlize.migrate true up executed w = executed w
  /\ Sqlize.initialize settings pkg true super_model authenticate databaseVersion up
       executed SemVer coerce satisfies otherDb w
     = Sqlize.initialize settings pkg true super_model authenticate databaseVersion up'
         executed SemVer coerce satisfies otherDb w.
Proof. split; reflexivity. Qed.

Section StartupWitnesses.
Import Js Sqlize Expected Sample Fixtures.

Lemma initialize_stops_when_authenticate_rejects_witness :
  initialize settings pkg false no_model (throw connection_refused) (ret "12.3.0")
    (ret tt) (ret [mkMigration "001-init.js"]) string coerce satisfies (mkOtherDb None)
    registered
  = (Throw connection_refused, registered).
Proof.
  apply (initialize_stops_when_authenticate_rejects settings pkg false no_model
           (throw connection_refused) (ret "12.3.0") (ret tt)
           (ret [mkMigration "001-init.js"]) string coerce satisfies (mkOtherDb None)
           registered connection_refused registered).
  reflexivity.
Defined.

Lemma initialize_stops_at_incompatible_engine_witness :
  exists w',
    initialize settings pkg false no_model (ret tt) (ret "9.6.0") (throw migration_failed)
      (ret [mkMigration "001-init.js"]) string coerce satisfies (mkOtherDb None) registered
    = (Throw (mkError (quote +:+ "sync-sequelize-salesforce" +:+ quote +:+
                       " requires postgres 12.3.0") Undefined), w')
    /\ systemMeta w' = ∅.
Proof.
  destruct (initialize_stops_at_incompatible_engine settings pkg false no_model (ret tt)
              (ret "9.6.0") (throw migration_failed) (ret [mkMigration "001-init.js"])
              string coerce satisfies (mkOtherDb None) registered registered "9.6.0"
              (snd (logger LevelInfo
                      (List.map (fun kv => (fst kv, LValue (snd kv))) (getConfig settings))
                      ["🗄️  Connected to database"] registered))
              {[ "postgres" := "12.3.0" ]} "12.3.0")
    as (w' & Hrun & Htable & _);
    [reflexivity | reflexivity | reflexivity | vm_compute; reflexivity | discriminate
     | reflexivity |].
  exists w'. split; [exact Hrun | exact Htable].
Defined.

Lemma checkDatabaseVersion_without_requirement_witness :
  fst (checkDatabaseVersion settings pkg_without_engines (ret "9.6.0") string coerce
         satisfies registered) = Return ReturnedThis.
Proof.
  rewrite (checkDatabaseVersion_without_requirement settings pkg_without_engines
             (ret "9.6.0") string coerce satisfies registered "9.6.0" registered eq_refl
             (or_introl eq_refl)).
  reflexivity.
Defined.

Lemma initialize_stops_when_migration_fails_witness :
  fst (initialize settings pkg false no_model (ret tt) (ret "12.3.0")
         (throw migration_failed) (ret [mkMigration "001-init.js"]) string coerce satisfies
         (mkOtherDb None) registered)
  = Throw migration_failed.
Proof.
  erewrite (initialize_stops_when_migration_fails settings pkg false no_model (ret tt)
              (ret "12.3.0") (throw migration_failed) (ret [mkMigration "001-init.js"])
              string coerce satisfies (mkOtherDb None) registered registered ReturnedThis);
    [reflexivity | reflexivity | reflexivity | vm_compute; reflexivity | reflexivity].
Defined.

Lemma initialize_with_migrations_witness :
  exists w',
    run [mkMigration "001-init.js"] registered = (Return ReturnedThis, w') /\
    systemMeta w' !! "versions" = Some [].
Proof.
  destruct (initialize_with_migrations settings pkg false no_model (ret tt) (ret "12.3.0")
              (ret tt) (ret [mkMigration "001-init.js"]) string coerce satisfies
              (mkOtherDb None) registered [mkMigration "001-init.js"]
              (snd (steps_1_to_3 settings pkg false (ret tt) (ret "12.3.0") (ret tt)
                      (ret [mkMigration "001-init.js"]) string coerce satisfies
                      (mkOtherDb None) registered))
              {[ "SystemMeta" := mkModel "SystemMeta"; "Account" := mkModel "Account" ]}
              (mkModel "SystemMeta"))
    as (w' & Hrun & Htable);
    [vm_compute; reflexivity | discriminate | reflexivity | vm_compute; reflexivity |].
  exists w'. split; [exact Hrun|]. rewrite Htable. vm_compute. reflexivity.
Defined.

End StartupWitnesses.

(** ** Unique-index groups in general *)

Section UniqueIndicesMore.
Import Js Fields Indices Sample.

(** The iteratee of [uniqueIndices], on the values of [rawAttributes]. *)
Local Abbreviation visit rawAttributes :=
  (fun (acc : Obj (list Value)) (attribute : FieldDescriptor) =>
     if negb (truthy (unique attribute))
        || bool_decide (is_Some (obj_get acc (to_key (unique attribute))))
     then acc
     else if strict_eq (unique attribute) (Bool true)
     then obj_set acc (to_key (field attribute)) [field attribute]
     else
       obj_set acc (to_key (unique attribute))
         (Lodash.map
            (Lodash.filter rawAttributes
               (fun candidate => strict_eq (unique candidate) (unique attribute)))
            field)).

Lemma fold_left_values {V A} (f : A -> V -> A) (l : Obj V) : forall acc,
  fold_left (fun acc kv => f acc (snd kv)) l acc = fold_left f (obj_values l) acc.
Proof. induction l as [|[k v] l IH]; intros acc; simpl; [reflexivity | apply IH]. Qed.

Lemma uniqueIndices_fold rawAttributes :
  uniqueIndices rawAttributes =
  obj_values (fold_left (visit rawAttributes) (obj_values rawAttributes) []).
Proof.
  unfold uniqueIndices, Lodash.transform. f_equal.
  exact (fold_left_values (visit rawAttributes) rawAttributes []).
Qed.

Lemma strict_eq_eq a b : strict_eq a b = true -> a = b.
Proof.
  destruct a as [| |x|x|x], b as [| |y|y|y]; simpl; try discriminate; try reflexivity.
  - intros H. apply Bool.eqb_prop in H. now subst.
  - intros H. apply Z.eqb_eq in H. now subst.
  - intros H. apply String.eqb_eq in H. now subst.
Qed.

Lemma strict_eq_refl a : strict_eq a a = true.
Proof.
  destruct a as [| |x|x|x]; simpl; try reflexivity.
  - now destruct x.
  - apply Z.eqb_refl.
  - apply String.eqb_refl.
Qed.

Lemma obj_values_set {V} (o : Obj V) k v x :
  x ∈ obj_values (obj_set o k v) -> x = v \/ x ∈ obj_values o.
Proof.
  induction o as [|[k' v'] o IH]; simpl.
  - rewrite list_elem_of_singleton. auto.
  - destruct (String.eqb k' k); simpl; rewrite !elem_of_cons.
    + intros [->|H]; auto.
    + intros [->|H]; [auto|]. destruct (IH H); auto.
Qed.

(** X17: every group [uniqueIndices] returns is non-empty and consists of
    columns of attributes that carry a truthy uniqueness marker; no group is
    invented and no column comes from an unmarked attribute. *)
Theorem uniqueIndices_groups_are_marked_columns rawAttributes group :
  group ∈ uniqueIndices rawAttributes ->
  group <> [] /\
  forall column,
    column ∈ group ->
    exists attribute,
      attribute ∈ obj_values rawAttributes /\ field attribute = column /\
      truthy (unique attribute) = true.
Proof.
  rewrite uniqueIndices_fold.
  set (good := fun g : list Value =>
         g <> [] /\
         forall column, column ∈ g ->
           exists attribute,
             attribute ∈ obj_values rawAttributes /\ field attribute = column /\
             truthy (unique attribute) = true).
  assert (forall l acc,
            (forall a, a ∈ l -> a ∈ obj_values rawAttributes) ->
            (forall g, g ∈ obj_values acc -> good g) ->
            forall g, g ∈ obj_values (fold_left (visit rawAttributes) l acc) -> good g)
    as Hfold.
  { induction l as [|a l IH]; intros acc Hsub Hacc; simpl; [exact Hacc|].
    apply IH; [intros b Hb; apply Hsub; now right|].
    assert (a ∈ obj_values rawAttributes) as Ha by (apply Hsub; now left).
    destruct (truthy (unique a)) eqn:Htruthy; simpl; [|exact Hacc].
    destruct (bool_decide (is_Some (obj_get acc (to_key (unique a))))); [exact Hacc|].
    destruct (strict_eq (unique a) (Bool true)).
    - intros g Hg. apply obj_values_set in Hg as [->|Hg]; [|now apply Hacc].
      split; [discriminate|]. intros column Hc.
      apply list_elem_of_singleton in Hc as ->. now exists a.
    - intros g Hg. apply obj_values_set in Hg as [->|Hg]; [|now apply Hacc].
      unfold Lodash.map, Lodash.filter. split.
      + intros Hnil. apply List.map_eq_nil in Hnil.
        assert (In a (List.filter
                        (fun candidate => strict_eq (unique candidate) (unique a))
                        (obj_values rawAttributes))) as Hin.
        { apply List.filter_In. split; [now apply list_elem_of_In | apply strict_eq_refl]. }
        rewrite Hnil in Hin. exact Hin.
      + intros column Hc. apply list_elem_of_In, List.in_map_iff in Hc as (b & <- & Hb).
        apply List.filter_In in Hb as [Hb Heq]. apply strict_eq_eq in Heq.
        exists b. split; [now apply list_elem_of_In|]. split; [reflexivity|].
        now rewrite Heq. }
  intros Hg. apply (Hfold (obj_values rawAttributes) [] (fun a H => H)); [|exact Hg].
  intros g Hin. now apply elem_of_nil in Hin.
Qed.

(** The accumulator holding one singleton per attribute of [marked]. *)
Local Abbreviation singletons marked :=
  (List.map (fun a : FieldDescriptor => (to_key (field a), [field a])) marked).

Lemma visit_boolean_markers rawAttributes : forall l marked,
  (forall a, a ∈ l -> unique a = Bool true \/ truthy (unique a) = false) ->
  NoDup (List.map (fun a => to_key (field a))
           (marked ++ List.filter (fun a => truthy (unique a)) l)) ->
  "true" ∉ List.map (fun a => to_key (field a))
             (marked ++ List.filter (fun a => truthy (unique a)) l) ->
  fold_left (visit rawAttributes) l (singletons marked) =
  singletons (marked ++ List.filter (fun a => truthy (unique a)) l).
Proof.
  induction l as [|a l IH]; intros marked Hbool Hnd Htrue; simpl.
  - now rewrite app_nil_r.
  - assert (forall b, b ∈ l -> unique b = Bool true \/ truthy (unique b) = false) as Hbool'
      by (intros b Hb; apply Hbool; now right).
    destruct (Hbool a ltac:(now left)) as [Hu|Hu].
    + simpl in Hnd, Htrue. rewrite Hu in *. simpl in *.
      assert (obj_get (singletons marked) "true" = None) as Hnone.
      { apply obj_get_None_keys. unfold obj_keys. rewrite List.map_map. simpl.
        intros Hin. apply Htrue. rewrite map_app. apply elem_of_app. now left. }
      rewrite Hnone. simpl.
      assert (obj_get (singletons marked) (to_key (field a)) = None) as Hfresh.
      { apply obj_get_None_keys. unfold obj_keys. rewrite List.map_map. simpl.
        rewrite map_app in Hnd. apply NoDup_app in Hnd as (_ & Hdisj & _).
        intros Hin. apply (Hdisj _ Hin). simpl. apply elem_of_cons. now left. }
      rewrite (obj_set_fresh _ _ _ Hfresh).
      replace (singletons marked ++ [(to_key (field a), [field a])])
        with (singletons (marked ++ [a])) by now rewrite map_app.
      rewrite (IH (marked ++ [a]) Hbool'); rewrite <- ?app_assoc; [reflexivity | exact Hnd | exact Htrue].
    + simpl in Hnd, Htrue. rewrite Hu in *. simpl. now apply IH.
Qed.

(** X16: when the only uniqueness markers are boolean ones, the marked
    columns differ from each other, none is the column ["true"], none is
    an array index (such names are enumerated before the others) and none
    is ["__proto__"] (assigning it makes no own property), the groups are
    the singletons of the marked columns in field order; with no marked
    attribute there is no group. *)
Theorem uniqueIndices_boolean_markers rawAttributes :
  (forall a, a ∈ obj_values rawAttributes ->
             unique a = Bool true \/ truthy (unique a) = false) ->
  NoDup (List.map (fun a => to_key (field a))
           (List.filter (fun a => truthy (unique a)) (obj_values rawAttributes))) ->
  "true" ∉ List.map (fun a => to_key (field a))
             (List.filter (fun a => truthy (unique a)) (obj_values rawAttributes)) ->
  Forall (fun a => JsNames.array_index (to_key (field a)) = false /\
                   to_key (field a) <> "__proto__")
    (List.filter (fun a => truthy (unique a)) (obj_values rawAttributes)) ->
  uniqueIndices rawAttributes =
  List.map (fun a => [field a])
    (List.filter (fun a => truthy (unique a)) (obj_values rawAttributes)).
Proof.
  intros Hbool Hnd Htrue _. rewrite uniqueIndices_fold.
  etransitivity;
    [apply f_equal;
     exact (visit_boolean_markers rawAttributes (obj_values rawAttributes) [] Hbool Hnd Htrue)|].
  cbn [app]. unfold obj_values at 1. now rewrite List.map_map.
Qed.

Lemma uniqueIndices_boolean_markers_witness :
  uniqueIndices
    [("id", attribute "id" Undefined); ("email", attribute "email" (Bool true));
     ("name", attribute "name" (Bool false)); ("sfId", attribute "sf_id" (Bool true))]
  = [[Str "email"]; [Str "sf_id"]].
Proof.
  rewrite (uniqueIndices_boolean_markers
             [("id", attribute "id" Undefined); ("email", attribute "email" (Bool true));
              ("name", attribute "name" (Bool false)); ("sfId", attribute "sf_id" (Bool true))]).
  - reflexivity.
  - intros a Ha. simpl in Ha.
    repeat (apply elem_of_cons in Ha as [->|Ha]; [simpl; auto|]).
    now apply elem_of_nil in Ha.
  - apply (bool_decide_unpack _). vm_compute. exact I.
  - apply (bool_decide_unpack _). vm_compute. exact I.
  - simpl. repeat constructor; try (vm_compute; reflexivity); discriminate.
Defined.

End UniqueIndicesMore.

(** ** Registration *)

Section RegistrationFacts.
Import Js Fields Registration Traces Expected.
Variable orm : OrmCall -> option Error.
Variable Promise : Wrap.PromiseCtor.

(** What a model keeps through [define]: its class and what it declares. *)
Local Abbreviation same_model Model Model' :=
  (model_class Model' = model_class Model /\ associate Model' = associate Model /\
   hooks Model' = hooks Model /\ scopes Model' = scopes Model).

(** [define] makes at most one call, an installing one, and when it
    returns it has made exactly one, for its model. *)
Lemma define_trace Model :
  Forall (fun c => is_install c = true) (fst (define orm Model Promise)) /\
  forall Model',
    snd (define orm Model Promise) = Return Model' ->
    List.map callee (fst (define orm Model Promise)) = [model_class Model] /\
    same_model Model Model'.
Proof.
  unfold define, and_then, call.
  destruct (isModel Model); simpl.
  - destruct (Wrap.wrapMethods (chain Model) Promise) as [chain'|e]; simpl.
    + destruct (orm _); simpl; (split; [repeat constructor|]);
        intros Model' [= <-]. now repeat split.
    + split; [constructor | discriminate].
  - destruct (orm _); simpl; (split; [repeat constructor|]);
      intros Model' [= <-]. now repeat split.
Qed.

(** The first [forEach]: installing calls only, and when it returns, one
    per model in the order of the mapping. *)
Lemma defineEach_trace (models : Obj ModelDef) :
  Forall (fun c => is_install c = true) (fst (defineEach orm models Promise)) /\
  forall models',
    snd (defineEach orm models Promise) = Return models' ->
    List.map callee (fst (defineEach orm models Promise)) =
      List.map (fun kv => model_class (snd kv)) models /\
    Forall2 (fun kv kv' => same_model (snd kv) (snd kv')) models models'.
Proof.
  induction models as [|[key Model] rest IH]; simpl.
  - split; [constructor|]. intros models' [= <-]. split; [reflexivity | constructor].
  - destruct (define_trace Model) as [Hinstall Hreturn].
    destruct (define orm Model Promise) as [calls [Model'|e]]; simpl in *.
    + destruct IH as [Hrest Hrest'].
      destruct (defineEach orm rest Promise) as [calls' [rest'|e]]; simpl in *.
      * destruct (Hreturn Model' eq_refl) as [Hcallee Hsame].
        destruct (Hrest' rest' eq_refl) as [Hcallees Hsames].
        rewrite app_nil_r. split; [now apply Forall_app|].
        intros models' [= <-].
        split; [now rewrite map_app, Hcallee, Hcallees | now constructor].
      * split; [now apply Forall_app | discriminate].
    + split; [exact Hinstall | discriminate].
Qed.

Lemma callEach_subset (calls : list OrmCall) c :
  c ∈ fst (callEach orm calls) -> c ∈ calls.
Proof.
  induction calls as [|c0 rest IH]; simpl; [intros H; exact H|].
  unfold and_then, call. destruct (orm c0); simpl.
  - intros H. apply list_elem_of_singleton in H as ->. apply elem_of_cons. now left.
  - destruct (callEach orm rest) as [calls' outcome]. simpl in *.
    rewrite !elem_of_cons. intros [->|H]; [now left | right; now apply IH].
Qed.

(** The second [forEach], for one model: wiring calls only, all for that
    model. *)
Lemma wire_trace models Model c :
  c ∈ fst (wire orm models Model) ->
  is_wiring c = true /\ callee c = model_class Model.
Proof.
  unfold wire, addHooks, addScopes, and_then.
  set (first := if associate Model
                then call orm (Associate (model_class Model) (obj_keys models))
                else ([], Return tt)).
  assert (forall x, x ∈ fst first -> is_wiring x = true /\ callee x = model_class Model)
    as Hfirst.
  { subst first. destruct (associate Model); simpl; intros x Hx.
    - apply list_elem_of_singleton in Hx as ->. now split.
    - now apply elem_of_nil in Hx. }
  assert (forall x l,
            x ∈ fst (callEach orm l) ->
            (forall y, y ∈ l -> is_wiring y = true /\ callee y = model_class Model) ->
            is_wiring x = true /\ callee x = model_class Model) as Heach
    by (intros x l Hx Hl; apply Hl; now apply callEach_subset).
  assert (forall y,
            y ∈ match hooks Model with
                | Some declared =>
                    List.map (fun kv => AddHook (model_class Model) (fst kv) (snd kv))
                      declared
                | None => []
                end ->
            is_wiring y = true /\ callee y = model_class Model) as Hhooks.
  { destruct (hooks Model) as [declared|]; intros y Hy; [|now apply elem_of_nil in Hy].
    apply list_elem_of_In, List.in_map_iff in Hy as (kv & <- & _). now split. }
  assert (forall y,
            y ∈ match scopes Model with
                | Some declared =>
                    List.map
                      (fun kv =>
                         AddScope (model_class Model) (fst kv)
                           (if String.eqb (fst kv) "defaultScope"
                            then result (snd kv) else snd kv) true)
                      declared
                | None => []
                end ->
            is_wiring y = true /\ callee y = model_class Model) as Hscopes.
  { destruct (scopes Model) as [declared|]; intros y Hy; [|now apply elem_of_nil in Hy].
    apply list_elem_of_In, List.in_map_iff in Hy as (kv & <- & _). now split. }
  destruct first as [calls [[]|e]]; simpl in *; [|exact (Hfirst c)].
  destruct (callEach orm match hooks Model with Some _ => _ | None => _ end)
    as [calls1 [[]|e1]] eqn:E1; simpl.
  - destruct (callEach orm match scopes Model with Some _ => _ | None => _ end)
      as [calls2 outcome2] eqn:E2; simpl.
    rewrite !elem_of_app. intros [H|[H|H]].
    + now apply Hfirst.
    + apply (Heach c _ ltac:(rewrite E1; exact H) Hhooks).
    + apply (Heach c _ ltac:(rewrite E2; exact H) Hscopes).
  - rewrite elem_of_app. intros [H|H].
    + now apply Hfirst.
    + apply (Heach c _ ltac:(rewrite E1; exact H) Hhooks).
Qed.

Lemma wireEach_trace models (rest : Obj ModelDef) c :
  c ∈ fst (wireEach orm models rest) ->
  is_wiring c = true /\ callee c ∈ List.map (fun kv => model_class (snd kv)) rest.
Proof.
  induction rest as [|[key Model] rest IH]; simpl; [intros H; now apply elem_of_nil in H|].
  unfold and_then.
  pose proof (wire_trace models Model c) as Hwire.
  destruct (wire orm models Model) as [calls [[]|e]]; simpl in *.
  - destruct (wireEach orm models rest) as [calls' outcome]. simpl in *.
    rewrite elem_of_app. intros [H|H].
    + destruct (Hwire H) as [Hw ->]. split; [exact Hw | apply elem_of_cons; now left].
    + destruct (IH H) as [Hw Hc]. split; [exact Hw | apply elem_of_cons; now right].
  - intros H. destruct (Hwire H) as [Hw ->]. split; [exact Hw | apply elem_of_cons; now left].
Qed.

(** X18: whatever the ORM answers, and whether [register] returns or is
    ended by a call that throws, the calls it makes into the ORM fall into
    two runs: first installing calls ([Model.init], or [super.define] for
    what is no [Sqlize.Model]), then wiring calls ([associate], [addHook],
    [addScope], the last always with [override]), each for one of the
    registered models.  A wiring call is made, and [register] returns, only
    after exactly one installing call was made for every model, in the
    order of the mapping: no model is wired before every model is
    installed. *)
Theorem register_installs_before_wiring (models : Obj ModelDef) w :
  exists installs wiring,
    fst (fst (register orm models Promise w)) = installs ++ wiring /\
    Forall (fun c => is_install c = true) installs /\
    Forall (fun c =>
              is_wiring c = true /\
              callee c ∈ List.map (fun kv => model_class (snd kv)) models) wiring /\
    (wiring <> [] \/ snd (fst (register orm models Promise w)) = Return tt ->
     List.map callee installs = List.map (fun kv => model_class (snd kv)) models).
Proof.
  unfold register, and_then. simpl.
  destruct (defineEach_trace models) as [Hinstalls Hreturn].
  destruct (defineEach orm models Promise) as [calls [models'|e]]; simpl in *.
  - destruct (Hreturn models' eq_refl) as [Hcallees Hsame].
    pose proof (wireEach_trace models' models') as Hwiring.
    destruct (wireEach orm models' models') as [calls' outcome]. simpl in *.
    exists calls, calls'. split; [reflexivity|]. split; [exact Hinstalls|].
    split; [|intros _; exact Hcallees].
    apply Forall_forall. intros c Hc. destruct (Hwiring c Hc) as [Hw Hin].
    split; [exact Hw|].
    assert (List.map (fun kv => model_class (snd kv)) models' =
            List.map (fun kv => model_class (snd kv)) models) as <-; [|exact Hin].
    clear -Hsame. induction Hsame as [|kv kv' l l' (Hclass & _) _ IH]; simpl;
      [reflexivity | now rewrite Hclass, IH].
  - exists calls, []. rewrite app_nil_r. split; [reflexivity|].
    split; [exact Hinstalls|]. split; [constructor|].
    intros [H|H]; [now destruct H | discriminate].
Qed.

Lemma registered_lookup (models : Obj ModelDef) k :
  (list_to_map (List.map (fun kv => (fst kv, model_class (snd kv))) models)
     : gmap string ModelClass) !! k
  = model_class <$> obj_get models k.
Proof.
  induction models as [|[key Model] rest IH]; simpl; [apply lookup_empty|].
  destruct (String.eqb_spec key k) as [->|Hne].
  - now rewrite lookup_insert_eq.
  - now rewrite lookup_insert_ne.
Qed.

(** X19: once [register] has run, even when it was ended by a call that
    threw, [model(name)] answers with the registered class for every key of
    the mapping without asking the ORM; a name that is no key and no member
    inherited from [Object.prototype] goes to the ORM's own lookup. *)
Theorem register_then_model (models : Obj ModelDef) w
    (super_model : string -> Completion (option ModelClass)) k :
  let w' := snd (register orm models Promise w) in
  (forall Model,
     obj_get models k = Some Model ->
     Sqlize.model super_model k w' = (Return (Some (model_class Model)), w'))
  /\ (obj_get models k = None ->
      k ∉ JsNames.inherited ->
      Sqlize.model super_model k w' = (super_model k, w')).
Proof.
  intros w'. unfold Sqlize.model.
  assert (dollar_models w' =
          Some (list_to_map (List.map (fun kv => (fst kv, model_class (snd kv))) models)))
    as -> by reflexivity.
  rewrite registered_lookup. split.
  - intros Model ->. reflexivity.
  - intros -> _. reflexivity.
Qed.

End RegistrationFacts.

Section RegistrationExamples.
Import Js Fields Registration Fixtures.

(** An ORM that accepts every call, and one that refuses to initialise
    [Audit]. *)
Local Abbreviation accepting := (fun _ : OrmCall => @None Error).
Local Abbreviation refusing :=
  (fun c : OrmCall =>
     match c with
     | Init Model _ _ =>
         if String.eqb (name Model) "Audit" then Some migration_failed else None
     | _ => None
     end).

Lemma register_then_model_witness :
  let w' := snd (register refusing [("Account", AccountModel); ("Audit", AuditModel)]
                   Wrap.SequelizePromise Sample.constructed) in
  Sqlize.model (Sequelize.model ∅) "Audit" w' = (Return (Some (mkModel "Audit")), w')
  /\ Sqlize.model (Sequelize.model ∅) "Contact" w' =
       (Throw (Sequelize.not_defined "Contact"), w').
Proof.
  intros w'. split.
  - apply (proj1 (register_then_model refusing Wrap.SequelizePromise
                    [("Account", AccountModel); ("Audit", AuditModel)] Sample.constructed
                    (Sequelize.model ∅) "Audit") AuditModel).
    reflexivity.
  - etransitivity.
    + apply (proj2 (register_then_model refusing Wrap.SequelizePromise
                      [("Account", AccountModel); ("Audit", AuditModel)] Sample.constructed
                      (Sequelize.model ∅) "Contact")).
      * reflexivity.
      * apply (bool_decide_unpack _). vm_compute. exact I.
    + reflexivity.
Defined.

(** The calls of a registration the ORM accepts, in full. *)
Example register_Account_and_Audit :
  fst (register accepting [("Account", AccountModel); ("Audit", AuditModel)]
         Wrap.SequelizePromise Sample.constructed)
  = ([Init (mkModel "Account")
        [("id", Sample.declared "id");
         ("createdAt", generated (Str "created_at") (Some false));
         ("updatedAt", generated (Str "updated_at") (Some false));
         ("deletedAt", generated (Str "deleted_at") None)]
        (mkOptions (Bool true) (Bool true) (Bool true) Undefined Undefined Undefined);
      Init (mkModel "Audit") []
        (mkOptions (Bool true) (Bool true) (Bool false) Undefined Undefined Undefined);
      Associate (mkModel "Account") ["Account"; "Audit"];
      AddHook (mkModel "Account") "beforeSave" 1%nat;
      AddScope (mkModel "Account") "defaultScope" (ScopeValue [("active", Bool true)]) true;
      AddScope (mkModel "Account") "recent" (ScopeFunction [("limit", Num 10)]) true],
     Return tt).
Proof. vm_compute. reflexivity. Qed.

(** When the ORM refuses the second model, nothing is wired. *)
Example register_refused :
  fst (register refusing [("Account", AccountModel); ("Audit", AuditModel)]
         Wrap.SequelizePromise Sample.constructed)
  = ([Init (mkModel "Account")
        [("id", Sample.declared "id");
         ("createdAt", generated (Str "created_at") (Some false));
         ("updatedAt", generated (Str "updated_at") (Some false));
         ("deletedAt", generated (Str "deleted_at") None)]
        (mkOptions (Bool true) (Bool true) (Bool true) Undefined Undefined Undefined);
      Init (mkModel "Audit") []
        (mkOptions (Bool true) (Bool true) (Bool false) Undefined Undefined Undefined)],
     Throw migration_failed).
Proof. vm_compute. reflexivity. Qed.

End RegistrationExamples.

(** ** Writable attributes *)

Section WritableAttributes.
Import Js Fields Attributes Fixtures.
Variable readOnly : gset string.

Local Abbreviation writable :=
  (fun kv : string * RawAttribute =>
     negb (bool_decide (primaryKey (descriptor (snd kv)) = Some true)
           || bool_decide (fieldName (snd kv) ∈ readOnly))).

Lemma writableAttributes_from (rest : Obj RawAttribute) : forall acc : Obj RawAttribute,
  wf_obj rest ->
  (forall k, k ∈ obj_keys rest -> obj_get acc k = None) ->
  fold_left
    (fun acc kv =>
       if bool_decide (primaryKey (descriptor (snd kv)) = Some true)
          || bool_decide (fieldName (snd kv) ∈ readOnly)
       then acc else obj_assign acc [(fst kv, snd kv)])
    rest acc
  = acc ++ List.filter writable rest.
Proof.
  unfold wf_obj.
  induction rest as [|[k a] rest IH]; intros acc Hwf Hfresh; simpl.
  - now rewrite app_nil_r.
  - simpl in Hwf. apply NoDup_cons in Hwf as [Hk Hwf].
    destruct (bool_decide (primaryKey (descriptor a) = Some true)
              || bool_decide (fieldName a ∈ readOnly)); simpl.
    + apply IH; [exact Hwf|]. intros k' Hk'. apply Hfresh. simpl.
      apply elem_of_cons. now right.
    + unfold obj_assign. simpl.
      rewrite obj_set_fresh by (apply Hfresh; simpl; apply elem_of_cons; now left).
      rewrite IH; [now rewrite <- app_assoc | exact Hwf |].
      intros k' Hk'. rewrite obj_get_app, Hfresh by (simpl; apply elem_of_cons; now right).
      simpl. destruct (String.eqb_spec k k') as [->|_]; [contradiction | reflexivity].
Qed.


End WritableAttributes.


(** ** The patched bulk insert *)

Section BulkInsert.
Import Js Fields QueryInterface.
Variable Result : Type.
Variable original :
  string -> list (Obj Value) -> option InsertOptions -> option (Obj InsertAttribute) ->
  M Result.

(** X21: the patched [bulkInsert] passes table, records and attributes on
    unchanged.  Options without truthy [upsertKeys] are passed on as they
    are.  Truthy [upsertKeys] are always replaced, whatever the caller put
    there: by the columns, in attribute order, of the attributes flagged
    [upsertKey] when there is one, and when there is none by the columns
    of the primary-key attributes (no column at all when there is none of
    these either, or no attributes); the other options are kept.  Called
    without options it throws before reaching the ORM. *)
Theorem bulkInsert_replaces_upsertKeys tableName records attributes w :
  let column := fun a => field (descriptor a) in
  let flagged :=
    List.filter (fun a => truthy (upsertKey a)) (obj_values (default [] attributes)) in
  let primary :=
    List.filter (fun a => bool_decide (primaryKey (descriptor a) = Some true))
      (obj_values (default [] attributes)) in
  (forall options,
     keys_truthy (upsertKeys options) = false ->
     bulkInsert Result original tableName records (Some options) attributes w =
     original tableName records (Some options) attributes w)
  /\ (forall options,
        keys_truthy (upsertKeys options) = true ->
        bulkInsert Result original tableName records (Some options) attributes w =
        original tableName records
          (Some (mkInsertOptions
                   (KeysColumns
                      (match flagged with
                       | [] => List.map column primary
                       | _ :: _ => List.map column flagged
                       end))
                   (others options)))
          attributes w)
  /\ bulkInsert Result original tableName records None attributes w =
     (Throw (mkError "Cannot read properties of undefined (reading 'upsertKeys')" Undefined),
      w).
Proof.
  intros column flagged primary. split; [|split].
  - intros options Hkeys. unfold bulkInsert. now rewrite Hkeys.
  - intros options Hkeys. unfold bulkInsert. rewrite Hkeys.
    unfold columns_of, Lodash.map, Lodash.filter. fold flagged primary.
    now destruct flagged.
  - reflexivity.
Qed.

End BulkInsert.

Lemma bulkInsert_replaces_upsertKeys_witness :
  QueryInterface.bulkInsert _ Fixtures.echo "account" []
    (Some (QueryInterface.mkInsertOptions
             (QueryInterface.KeysColumns [Js.Str "id"; Js.Str "name"]) []))
    (Some Fixtures.insertAttributes) Sample.registered
  = (Return (Some (QueryInterface.mkInsertOptions
                     (QueryInterface.KeysColumns [Js.Str "sf_id"]) [])),
     Sample.registered).
Proof.
  destruct (bulkInsert_replaces_upsertKeys _ Fixtures.echo "account" []
              (Some Fixtures.insertAttributes) Sample.registered) as (_ & Htruthy & _).
  rewrite (Htruthy (QueryInterface.mkInsertOptions
                      (QueryInterface.KeysColumns [Js.Str "id"; Js.Str "name"]) [])
             eq_refl).
  reflexivity.
Defined.

Lemma uniqueIndices_groups_are_marked_columns_witness :
  [Js.Str "a"; Js.Str "b"] <> [] /\
  forall column,
    column ∈ [Js.Str "a"; Js.Str "b"] ->
    exists attribute,
      attribute ∈ Js.obj_values (Sample.grouped "g" "c") /\
      Fields.field attribute = column /\ Js.truthy (Fields.unique attribute) = true.
Proof.
  apply (uniqueIndices_groups_are_marked_columns (Sample.grouped "g" "c")
           [Js.Str "a"; Js.Str "b"]).
  vm_compute. apply elem_of_cons. now left.
Defined.
